(** * PSGC-API: code grammar, entity classification, cleaning, merge and
      count validation of the import scripts, embedded from the JavaScript
      sources under [src/scripts]. *)

From Stdlib Require Import ZArith Lia Bool Ascii String DecimalString.
From stdpp Require Import gmap strings list.

Local Open Scope string_scope.
Local Open Scope list_scope.
Local Set Warnings "-clear-no-such-hyp".

(** ** JavaScript values and the string primitives the scripts call *)

Module JS.

(** The values a parsed JSON/CSV record carries.  A missing property reads
    as [VUndefined]; [VNum n] is the integer [n], of magnitude below 10^21,
    which [String] prints in plain decimal; a string is a sequence of code
    units below 256, one [ascii] each.  Any other value (a number of
    magnitude 10^21 or more, which [String] prints with an exponent, as
    1e+21; a fraction, NaN, an array, an object) is [VOther], known by what
    [ToBoolean] and [String] make of it; it has no string methods. *)
Inductive jsval :=
| VUndefined
| VNull
| VBool (b : bool)
| VNum (n : Z)
| VStr (s : string)
| VOther (toBoolean : bool) (text : string).

#[global] Instance jsval_eq_dec : EqDecision jsval.
Proof. solve_decision. Defined.

(** An object read as a map from property names to values. *)
Abbreviation obj := (gmap string jsval).

(** [o.k]: a property that is absent reads [undefined]. *)
Definition get (o : obj) (k : string) : jsval := default VUndefined (o !! k).

(** ToBoolean. *)
Definition truthy (v : jsval) : bool :=
  match v with
  | VUndefined | VNull => false
  | VBool b => b
  | VNum n => negb (n =? 0)%Z
  | VStr s => negb (String.eqb s "")
  | VOther b _ => b
  end.

(** [a || b]. *)
Definition orElse (a b : jsval) : jsval := if truthy a then a else b.

(** [a1 || a2 || ... || an], left to right. *)
Fixpoint ors (l : list jsval) : jsval :=
  match l with
  | [] => VUndefined
  | [a] => a
  | a :: r => if truthy a then a else ors r
  end.

(** What a call yields: a value, or a raised exception. *)
Inductive res (A : Type) :=
| Ok (a : A)
| Throw.
Arguments Ok {A} a.
Arguments Throw {A}.

(** [a === b], as the scripts use it: against a number or string literal. *)
Definition strictEq (a b : jsval) : bool := bool_decide (a = b).

(** Decimal text of an integer, as [String(n)] prints the number of a
    [VNum] and as a template literal prints a count (an array length, or a
    difference of two). *)
Definition showZ (n : Z) : string := NilZero.string_of_int (Z.to_int n).

(** [String(v)]. *)
Definition toStr (v : jsval) : string :=
  match v with
  | VUndefined => "undefined"
  | VNull => "null"
  | VBool true => "true"
  | VBool false => "false"
  | VNum n => showZ n
  | VStr s => s
  | VOther _ text => text
  end.

(** [null] or a string, as the normalisers return it. *)
Definition ofOption (o : option string) : jsval :=
  match o with Some s => VStr s | None => VNull end.

Definition code_of (c : ascii) : nat := nat_of_ascii c.

(** [\d] and its complement [\D]. *)
Definition isDigit (c : ascii) : bool :=
  (48 <=? code_of c)%nat && (code_of c <=? 57)%nat.

(** White space and line terminators that [trim] removes (code units
    below 256: TAB, LF, VT, FF, CR, SP, NBSP). *)
Definition isWhiteSpace (c : ascii) : bool :=
  let n := code_of c in
  ((9 <=? n)%nat && (n <=? 13)%nat) || (n =? 32)%nat || (n =? 160)%nat.

Fixpoint trimStart (s : string) : string :=
  match s with
  | String c r => if isWhiteSpace c then trimStart r else s
  | EmptyString => EmptyString
  end.

Fixpoint trimEnd (s : string) : string :=
  match s with
  | String c r =>
      match trimEnd r with
      | EmptyString => if isWhiteSpace c then EmptyString else String c EmptyString
      | r' => String c r'
      end
  | EmptyString => EmptyString
  end.

(** [s.trim()]. *)
Definition trim (s : string) : string := trimEnd (trimStart s).

(** [v.trim()] on a value: only a string has the method, anything else
    raises a TypeError ([None]). *)
Definition callTrim (v : jsval) : option string :=
  match v with VStr s => Some (trim s) | _ => None end.

(** [s.replace(/\D/g, '')]. *)
Fixpoint stripNonDigits (s : string) : string :=
  match s with
  | String c r => if isDigit c then String c (stripNonDigits r) else stripNonDigits r
  | EmptyString => EmptyString
  end.

Fixpoint replicate (n : nat) (c : ascii) : string :=
  match n with O => EmptyString | S k => String c (replicate k c) end.

(** [s.padStart(n, c)] for a one-character filler. *)
Definition padStart (n : nat) (c : ascii) (s : string) : string :=
  replicate (n - String.length s) c +:+ s.

(** [s.substring(from, to)] for [from <= to]. *)
Definition substring (from to : nat) (s : string) : string :=
  String.substring from (to - from) s.

(** [s.substring(from)]. *)
Fixpoint substringFrom (from : nat) (s : string) : string :=
  match from, s with
  | S k, String _ r => substringFrom k r
  | _, _ => s
  end.

(** [s.startsWith(p)]. *)
Fixpoint startsWith (p s : string) : bool :=
  match p, s with
  | EmptyString, _ => true
  | String a p', String b s' => Ascii.eqb a b && startsWith p' s'
  | String _ _, EmptyString => false
  end.

(** [s.includes(p)]. *)
Fixpoint includes (p s : string) : bool :=
  startsWith p s ||
  match s with String _ s' => includes p s' | EmptyString => false end.

(** [s.endsWith(p)]. *)
Fixpoint endsWith (p s : string) : bool :=
  String.eqb p s ||
  match s with String _ s' => endsWith p s' | EmptyString => false end.

(** Lower case of one code unit: A-Z, and the Latin-1 capitals
    0xC0-0xDE except the multiplication sign 0xD7. *)
Definition lowerChar (c : ascii) : ascii :=
  let n := code_of c in
  if ((65 <=? n)%nat && (n <=? 90)%nat)
     || ((192 <=? n)%nat && (n <=? 222)%nat && negb (n =? 215)%nat)
  then ascii_of_nat (n + 32) else c.

(** [s.toLowerCase()]. *)
Fixpoint toLowerCase (s : string) : string :=
  match s with
  | String c r => String (lowerChar c) (toLowerCase r)
  | EmptyString => EmptyString
  end.

End JS.

Import JS.

(** ** The regular expressions the classifiers test *)

Module Regex.

(** One position of a pattern: [\d] or a literal character. *)
Inductive atom := Digit | Lit (c : ascii).

Definition atomMatches (a : atom) (c : ascii) : bool :=
  match a with Digit => isDigit c | Lit d => Ascii.eqb d c end.

(** [^p$]: the whole string, position by position. *)
Fixpoint matchAll (p : list atom) (s : string) : bool :=
  match p, s with
  | [], EmptyString => true
  | a :: p', String c s' => atomMatches a c && matchAll p' s'
  | _, _ => false
  end.

(** [p$]: some suffix of the string. *)
Fixpoint matchEnd (p : list atom) (s : string) : bool :=
  matchAll p s ||
  match s with String _ s' => matchEnd p s' | EmptyString => false end.

(** [^\d{n}0...0$] with [k] zeros. *)
Definition digitsThenZeros (n k : nat) : list atom :=
  repeat Digit n ++ repeat (Lit "0") k.

Definition reRegion := digitsThenZeros 2 7.      (* /^\d{2}0000000$/ *)
Definition reProvince := digitsThenZeros 4 5.    (* /^\d{4}00000$/ *)
Definition reDistrict := digitsThenZeros 5 4.    (* /^\d{5}0000$/ *)
Definition reCityMuni := digitsThenZeros 6 3.    (* /^\d{6}000$/ *)
Definition reNineDigits := repeat Digit 9.       (* /^\d{9}$/ *)
Definition reTripleZero := repeat (Lit "0") 3.   (* /000$/ *)

End Regex.

Import Regex.

(** ** Code normalisation, one definition per script *)

(** src/scripts/cleanPSGCData.js *)
Module CleanCode.

Definition normalizeCode (code : jsval) : option string :=
  if negb (truthy code) then None
  else
    let codeStr := trim (toStr code) in
    let codeStr := stripNonDigits codeStr in
    if (String.length codeStr =? 0)%nat then None
    else Some (substring 0 9 (padStart 9 "0" codeStr)).

End CleanCode.

(** src/scripts/importPSGC.js, src/scripts/validatePSGC.js *)
Module ImportCode.

Definition normalizeCode (code : jsval) : option string :=
  if negb (truthy code) then None
  else
    let codeStr := trim (toStr code) in
    if (String.length codeStr =? 0)%nat then None
    else Some (substring 0 9 (padStart 9 "0" codeStr)).

End ImportCode.

(** The download script for the PSA source (ten-digit codes handled). *)
Module PsaCode.

Definition normalizeCode (code : jsval) : option string :=
  if negb (truthy code) then None
  else
    let codeStr := toStr code in
    if (String.length codeStr =? 10)%nat && startsWith "0" codeStr
    then Some (substringFrom 1 codeStr)
    else Some (substring 0 9 (padStart 9 "0" codeStr)).

End PsaCode.

(** The fetch script for PSGC Cloud: the same, without the falsy guard. *)
Module CloudCode.

Definition normalizeCode (code : jsval) : string :=
  let codeStr := toStr code in
  if (String.length codeStr =? 10)%nat && startsWith "0" codeStr
  then substringFrom 1 codeStr
  else substring 0 9 (padStart 9 "0" codeStr).

End CloudCode.

(** src/scripts/fixMissingRecords.js *)
Module FixCode.

Definition normalizeCode (code : jsval) : option string :=
  if negb (truthy code) then None
  else Some (substring 0 9 (padStart 9 "0" (toStr code))).

End FixCode.

(** ** src/scripts/cleanPSGCData.js *)

Module CleanPSGCData.

Import CleanCode.

Inductive level := region | province | district | city | municipality | barangay.

#[global] Instance level_eq_dec : EqDecision level.
Proof. solve_decision. Defined.

(** The object [classifyEntity] returns; [cityClass] is [undefined] on
    every level but a city. *)
Record entity := {
  type : level;
  code : string;
  name : jsval;
  cityClass : jsval
}.

Definition classifyEntity (code name type : jsval) (row : obj)
  : res (option entity) :=
  match normalizeCode code with
  | None => Ok None
  | Some code =>
    if String.eqb code "000000000" then Ok None
    else
      match callTrim (orElse name (VStr "")), callTrim (orElse type (VStr "")) with
      | Some name, Some type =>
        let name := toLowerCase name in
        let type := toLowerCase type in
        let ename := orElse (get row "name") (VStr name) in
        let mk t cc := {| type := t; code := code; name := ename; cityClass := cc |} in
        (* Region: XX0000000 *)
        if matchAll reRegion code then Ok (Some (mk region VUndefined))
        (* Province: XXXX00000 *)
        else if matchAll reProvince code then Ok (Some (mk province VUndefined))
        (* District: XXXXX0000 *)
        else if matchAll reDistrict code then Ok (Some (mk district VUndefined))
        (* City/Municipality: XXXXXX000 *)
        else if matchAll reCityMuni code then
          let isCity :=
            includes "city" type
            || includes "city of" name
            || endsWith " city" name
            || truthy (get row "city_class") || truthy (get row "cityClass")
            || truthy (get row "City Class") || truthy (get row "city class")
            || (includes "city" name
                && (includes "highly urbanized" name
                    || includes "independent component" name
                    || includes "component city" name)) in
          if isCity then
            Ok (Some (mk city (ors [get row "city_class"; get row "cityClass";
                                    get row "City Class"; VNull])))
          else Ok (Some (mk municipality VUndefined))
        (* Barangay: XXXXXXAAA (last 3 digits NOT 000) *)
        else if matchAll reNineDigits code && negb (matchEnd reTripleZero code)
        then Ok (Some (mk barangay VUndefined))
        else Ok None
      | _, _ => Throw
      end
  end.

(** A cleaned record: its properties in the order they are assigned. *)
Definition cleanEntity := list (string * jsval).

Inductive invalidEntry :=
| MissingCodeOrName (index : nat) (item : obj)
| InvalidPattern (index : nat) (code name : string)
| Thrown (index : nat) (code name : jsval).

Record duplicateEntry := { dup_index : nat; dup_code : string; dup_name : string }.

(** The accumulators of [cleanData]. *)
Record state := {
  regions : list cleanEntity;
  provinces : list cleanEntity;
  districts : list cleanEntity;
  cities : list cleanEntity;
  municipalities : list cleanEntity;
  barangays : list cleanEntity;
  seen : gset string;
  duplicates : list duplicateEntry;
  invalid : list invalidEntry
}.

Definition init : state :=
  {| regions := []; provinces := []; districts := []; cities := [];
     municipalities := []; barangays := []; seen := ∅;
     duplicates := []; invalid := [] |}.

Definition pushInvalid (e : invalidEntry) (st : state) : state :=
  {| regions := regions st; provinces := provinces st; districts := districts st;
     cities := cities st; municipalities := municipalities st;
     barangays := barangays st; seen := seen st;
     duplicates := duplicates st; invalid := invalid st ++ [e] |}.

Definition pushDuplicate (d : duplicateEntry) (st : state) : state :=
  {| regions := regions st; provinces := provinces st; districts := districts st;
     cities := cities st; municipalities := municipalities st;
     barangays := barangays st; seen := seen st;
     duplicates := duplicates st ++ [d]; invalid := invalid st |}.

Definition addSeen (c : string) (st : state) : state :=
  {| regions := regions st; provinces := provinces st; districts := districts st;
     cities := cities st; municipalities := municipalities st;
     barangays := barangays st; seen := {[c]} ∪ seen st;
     duplicates := duplicates st; invalid := invalid st |}.

(** [cleaned.<level>s.push(e)]; nothing pushes to [cleaned.districts]. *)
Definition pushCleaned (t : level) (e : cleanEntity) (st : state) : state :=
  let add (t' : level) (l : list cleanEntity) :=
    if decide (t = t') then l ++ [e] else l in
  {| regions := add region (regions st); provinces := add province (provinces st);
     districts := districts st;
     cities := add city (cities st);
     municipalities := add municipality (municipalities st);
     barangays := add barangay (barangays st); seen := seen st;
     duplicates := duplicates st; invalid := invalid st |}.

Section Fields.
Variables (item : obj) (code : string).

Definition regionCodeOf : jsval :=
  ofOption (normalizeCode (ors [get item "region_code"; get item "regionCode";
                                VStr (substring 0 2 code +:+ "0000000")])).
Definition provinceCodeOf : jsval :=
  ofOption (normalizeCode (ors [get item "province_code"; get item "provinceCode";
                                VStr (substring 0 4 code +:+ "00000")])).
Definition islandGroupCodeOf : jsval :=
  ofOption (normalizeCode (ors [get item "island_group_code";
                                get item "islandGroupCode"; VNull])).
Definition incomeClassOf : jsval :=
  ors [get item "income_class"; get item "incomeClass";
       get item "Income Classification";
       get item ("Income" +:+ String (ascii_of_nat 10) "Classification"); VNull].
Definition isCapitalOf : jsval :=
  if strictEq (get item "is_capital") (VNum 1)
     || strictEq (get item "isCapital") (VNum 1)
     || strictEq (get item "capital") (VStr "Yes")
     || strictEq (get item "Capital") (VStr "Yes")
  then VNum 1 else VNum 0.
Definition urbanRuralOf : jsval :=
  ors [get item "urban_rural"; get item "urbanRural"; get item "Urban / Rural";
       get item ("Urban / Rural" +:+ String (ascii_of_nat 10) "(based on 2020 CPH)");
       VNull].

(** The level-specific fields added to [{code, name}]. *)
Definition buildEntity (e : entity) : cleanEntity :=
  let base := [("code", VStr (CleanPSGCData.code e)); ("name", name e)] in
  match type e with
  | region =>
      base ++ [("island_group_code", islandGroupCodeOf);
               ("island_group_name",
                ors [get item "island_group_name"; get item "islandGroupName"; VNull])]
  | province =>
      base ++ [("region_code", regionCodeOf);
               ("island_group_code", islandGroupCodeOf)]
  | city =>
      base ++ [("province_code", provinceCodeOf); ("region_code", regionCodeOf);
               ("city_class",
                ors [cityClass e; get item "city_class"; get item "cityClass";
                     get item "City Class"; VNull]);
               ("income_class", incomeClassOf); ("is_capital", isCapitalOf)]
  | municipality =>
      base ++ [("province_code", provinceCodeOf); ("region_code", regionCodeOf);
               ("income_class", incomeClassOf); ("is_capital", isCapitalOf)]
  | barangay =>
      base ++ [("city_code", VNull); ("municipality_code", VNull);
               ("province_code", provinceCodeOf); ("region_code", regionCodeOf);
               ("urban_rural", urbanRuralOf)]
  | district => base
  end.
End Fields.

(** The body of [data.forEach((item, index) => { try { ... } catch ... })]. *)
Definition cleanItem (st : state) (index : nat) (item : obj) : state :=
  let code := normalizeCode (ors [get item "code"; get item "Code";
                                  get item "10-digit PSGC";
                                  get item "Correspondence Code"]) in
  let thrown := Thrown index (get item "code") (get item "name") in
  match callTrim (ors [get item "name"; get item "Name"; VStr ""]),
        callTrim (ors [get item "type"; get item "Type";
                       get item "Geographic Level"; VStr ""]) with
  | Some name, Some type =>
    match code with
    | None => pushInvalid (MissingCodeOrName index item) st
    | Some code =>
      if String.eqb name "" then pushInvalid (MissingCodeOrName index item) st
      (* Check for duplicates *)
      else if decide (code ∈ seen st)
      then pushDuplicate {| dup_index := index; dup_code := code; dup_name := name |} st
      else
        let st := addSeen code st in
        match classifyEntity (VStr code) (VStr name) (VStr type) item with
        | Throw => pushInvalid thrown st
        | Ok None => pushInvalid (InvalidPattern index code name) st
        | Ok (Some entity) =>
            pushCleaned (CleanPSGCData.type entity) (buildEntity item code entity) st
        end
    end
  | _, _ => pushInvalid thrown st
  end.

(** The loop, from index [i] on. *)
Fixpoint cleanFrom (i : nat) (data : list obj) (st : state) : state :=
  match data with
  | [] => st
  | item :: rest => cleanFrom (S i) rest (cleanItem st i item)
  end.

Definition cleanRun (data : list obj) : state := cleanFrom 0 data init.

(** The flattened array [allData]. *)
Definition allData (st : state) : list cleanEntity :=
  regions st ++ provinces st ++ districts st ++ cities st
  ++ municipalities st ++ barangays st.

(** [cleanData(data)]: the returned array. *)
Definition cleanData (data : list obj) : list cleanEntity := allData (cleanRun data).

(** The figure the report prints as "Duplicates removed". *)
Definition duplicatesRemoved (data : list obj) : nat := length (duplicates (cleanRun data)).

End CleanPSGCData.

(** ** src/scripts/fixMissingRecords.js *)

Module FixMissingRecords.

Import FixCode.

Inductive kind := region | province | city | municipality | barangay.

(** [(v || '').toLowerCase()]: a TypeError ([None]) unless the value is a
    string or falsy. *)
Definition lowerOf (v : jsval) : option string :=
  match orElse v (VStr "") with VStr s => Some (toLowerCase s) | _ => None end.

Definition classifyEntity (item : obj) : res (option kind) :=
  match normalizeCode (get item "code") with
  | None => Ok None
  | Some code =>
    if matchAll reRegion code then Ok (Some region)
    else if matchAll reProvince code then Ok (Some province)
    else if matchAll reCityMuni code then
      match lowerOf (get item "name"), lowerOf (get item "type") with
      | Some name, Some type =>
        let isExplicitMunicipality :=
          includes "municipality of" name
          || (includes "municipality" name && negb (includes "city" name)) in
        let isCity :=
          negb isExplicitMunicipality
          && (String.eqb type "city"
              || includes "city of" name
              || endsWith " city" name
              || includes "city" name
              || truthy (get item "city_class")
              || truthy (get item "cityClass")
              || truthy (get item "city_classification")
              || truthy (get item "cityCode")) in
        Ok (Some (if isCity then city else municipality))
      | _, _ => Throw
      end
    else if matchAll reNineDigits code && negb (matchEnd reTripleZero code)
    then Ok (Some barangay)
    else Ok None
  end.

(** [map.set(code, item)] for every item with a code. *)
Definition indexByCode (m : gmap string obj) (item : obj) : gmap string obj :=
  match normalizeCode (get item "code") with
  | Some code => <[code := item]> m
  | None => m
  end.

(** "Find missing records from source file and deduplicate": one step of
    the loop over [sourceData], on [(sourceMap, missingRecords)]. *)
Definition collectMissing (completeMap : gmap string obj)
    (acc : gmap string obj * list obj) (item : obj) : gmap string obj * list obj :=
  let '(sourceMap, missingRecords) := acc in
  match normalizeCode (get item "code") with
  | Some code =>
    match completeMap !! code with
    | None =>
      match sourceMap !! code with
      | None => (<[code := item]> sourceMap, missingRecords ++ [item])
      | Some _ => acc
      end
    | Some _ => acc
    end
  | None => acc
  end.

(** "Combine: use complete data as base, add missing from source": one
    step of the loop over [missingRecords], on [(fixedData, completeMap)]. *)
Definition addMissing (acc : list obj * gmap string obj) (item : obj)
  : list obj * gmap string obj :=
  let '(fixedData, completeMap) := acc in
  match normalizeCode (get item "code") with
  | Some code =>
    match completeMap !! code with
    | None => (fixedData ++ [item], <[code := item]> completeMap)
    | Some _ => acc
    end
  | None => acc
  end.

(** The three loops that build [fixedData] from the parsed files. *)
Definition mergeRecords (completeData sourceData : list obj) : list obj :=
  let completeMap := foldl indexByCode ∅ completeData in
  let missingRecords := snd (foldl (collectMissing completeMap) (∅, []) sourceData) in
  fst (foldl addMissing (completeData, completeMap) missingRecords).

(** The counting loops call [classifyEntity] on every record: this holds
    when none of the calls raises. *)
Definition classifiesAll (data : list obj) : bool :=
  forallb (fun item => match classifyEntity item with Ok _ => true | Throw => false end)
          data.

(** [fixMissingRecords(completeFile, sourceFile, outputFile)] on the parsed
    contents of the two files: the array it returns, unless classifying a
    record raised. *)
Definition fixMissingRecords (completeData sourceData : list obj) : res (list obj) :=
  if classifiesAll completeData && classifiesAll sourceData
  then Ok (mergeRecords completeData sourceData)
  else Throw.

End FixMissingRecords.

(** ** src/scripts/validatePSGC.js *)

Module ValidatePSGC.

Import ImportCode.

Record standard := { exact : Z; min : Z; max : Z }.

Definition exactly (n : Z) : standard := {| exact := n; min := n; max := n |}.

(** [PSA_STANDARDS] (the cities' breakdown is not read by the checks). *)
Definition PSA_regions := exactly 18.
Definition PSA_provinces := exactly 82.
Definition PSA_cities := exactly 149.
Definition PSA_municipalities := exactly 1493.
Definition PSA_barangays := exactly 42011.

Inductive bucket :=
| regions | provinces | districts | cities | municipalities | barangays | unknown.

#[global] Instance bucket_eq_dec : EqDecision bucket.
Proof. solve_decision. Defined.

(** "Classify by PSGC pattern": the if-chain of [validateDataFile]. *)
Definition bucketOf (code name : string) (type : jsval) : bucket :=
  if matchAll reRegion code then regions
  else if matchAll reProvince code then provinces
  else if matchAll reDistrict code then districts
  else if matchAll reCityMuni code then
    let isCity :=
      strictEq type (VStr "City")
      || includes "city of" (toLowerCase name)
      || endsWith " city" (toLowerCase name)
      || includes "city" (toLowerCase name) in
    if isCity then cities else municipalities
  else if matchAll reNineDigits code && negb (matchEnd reTripleZero code)
  then barangays
  else unknown.

(** The body of the loop: [Ok None] for a record that is skipped. *)
Definition classifyItem (item : obj) : res (option bucket) :=
  let code := normalizeCode (ors [get item "code"; get item "Code"; get item "CODE"]) in
  match callTrim (ors [get item "name"; get item "Name"; get item "NAME"; VStr ""]) with
  | None => Throw
  | Some name =>
    let type := ors [get item "type"; get item "Type"; get item "TYPE"; VStr ""] in
    match code with
    | None => Ok None
    | Some code =>
      if String.eqb code "000000000" then Ok None
      else Ok (Some (bucketOf code name type))
    end
  end.

(** [${diff > 0 ? '+' : ''}${diff}]. *)
Definition signed (diff : Z) : string :=
  (if (0 <? diff)%Z then "+" else "") +:+ showZ diff.

(** [validateCount(name, actual, standard)]: the line written to the
    console and the value returned ([None] for [null]). *)
Definition validateCount (name : string) (actual : Z) (standard : standard)
  : string * option string :=
  let diff := (actual - exact standard)%Z in
  let withinRange := (min standard <=? actual)%Z && (actual <=? max standard)%Z in
  let exactMatch := (actual =? exact standard)%Z in
  if exactMatch then
    ("  ✅ " +:+ name +:+ ": " +:+ showZ actual
       +:+ " (EXACT MATCH with PSA official: " +:+ showZ (exact standard) +:+ ")",
     None)
  else if withinRange then
    ("  ⚠️  " +:+ name +:+ ": " +:+ showZ actual
       +:+ " (PSA official: " +:+ showZ (exact standard)
       +:+ ", difference: " +:+ signed diff +:+ ")",
     Some ("(" +:+ name +:+ " count (" +:+ showZ actual
           +:+ ") differs from PSA official (" +:+ showZ (exact standard)
           +:+ "), difference: " +:+ signed diff +:+ ")"))
  else
    ("  ❌ " +:+ name +:+ ": " +:+ showZ actual
       +:+ " (PSA official: " +:+ showZ (exact standard)
       +:+ ", difference: " +:+ signed diff
       +:+ ", OUTSIDE expected range " +:+ showZ (min standard)
       +:+ "-" +:+ showZ (max standard) +:+ ")",
     Some (name +:+ " count (" +:+ showZ actual
           +:+ ") outside expected range (" +:+ showZ (min standard)
           +:+ "-" +:+ showZ (max standard)
           +:+ "), PSA official: " +:+ showZ (exact standard))).

(** The outcome the line reports. *)
Inductive verdict :=
| ExactMatch
| WithinTolerance (delta : Z)
| OutOfRange (delta : Z).

(** Which of the three branches [validateCount] takes, with [diff]. *)
Definition verdictOf (actual : Z) (standard : standard) : verdict :=
  let diff := (actual - exact standard)%Z in
  if (actual =? exact standard)%Z then ExactMatch
  else if (min standard <=? actual)%Z && (actual <=? max standard)%Z
  then WithinTolerance diff
  else OutOfRange diff.

End ValidatePSGC.

(** [compareCount] of src/scripts/cleanPSGCData.js: the line it logs, and
    its five calls in [main]. *)
Module CompareCount.

Import ValidatePSGC.

Definition compareCount (name : string) (actual expected : Z) : string :=
  let diff := (actual - expected)%Z in
  if (diff =? 0)%Z then
    "  ✅ " +:+ name +:+ ": " +:+ showZ actual +:+ " (EXACT MATCH)"
  else
    "  " +:+ (if (0 <? diff)%Z then "⚠️" else "❌") +:+ " " +:+ name +:+ ": "
      +:+ showZ actual +:+ " (expected: " +:+ showZ expected
      +:+ ", difference: " +:+ signed diff +:+ ")".

(** The five calls of [main]: the label, the property of [cleaned] whose
    [length] is passed, and the figure of [PSA_STANDARDS] (plain numbers in
    this script). *)
Definition calls : list (string * string * Z) :=
  [("Regions", "regions", 18%Z);
   ("Provinces", "provinces", 82%Z);
   ("Cities", "cities", 149%Z);
   ("Municipalities", "municipalities", 1493%Z);
   ("Barangays", "barangays", 42011%Z)].

(** [cleaned] in [main] is what [cleanData] returns: the flat array
    [allData].  Read as an object, an array has its indices and [length] as
    own properties; an element is a cleaned record, an object.  (No property
    of Array.prototype bears the name of a level.) *)
Definition arrayObject (cleaned : list obj) : obj :=
  <["length" := VNum (Z.of_nat (length cleaned))]>
    (list_to_map
       (imap (fun i _ => (showZ (Z.of_nat i), VOther true "[object Object]"))
             cleaned)).

(** [v.length] for the value [v] of a property of [cleaned]: a TypeError on
    [undefined] and [null]; the number of code units of a string; and
    [undefined] ([None]) on a number, a boolean or a cleaned record, which
    have no [length]. *)
Definition lengthOf (v : jsval) : res (option Z) :=
  match v with
  | VUndefined | VNull => Throw
  | VStr s => Ok (Some (Z.of_nat (String.length s)))
  | VNum _ | VBool _ | VOther _ _ => Ok None
  end.

(** [compareCount(name, actual, expected)] for the value read: when
    [actual] is [undefined], [diff] is NaN, which is neither [=== 0] nor
    [> 0]. *)
Definition compareCountOf (name : string) (actual : option Z) (expected : Z)
  : string :=
  match actual with
  | Some n => compareCount name n expected
  | None =>
      "  ❌ " +:+ name +:+ ": undefined (expected: " +:+ showZ expected
        +:+ ", difference: NaN)"
  end.

(** The calls in order: the lines logged, or the exception of the first
    argument that raises ([main] catches it, prints the error and exits
    with code 1). *)
Fixpoint compareAll (cleaned : obj) (cs : list (string * string * Z))
  : res (list string) :=
  match cs with
  | [] => Ok []
  | (name, key, expected) :: rest =>
    match lengthOf (get cleaned key) with
    | Throw => Throw
    | Ok actual =>
      match compareAll cleaned rest with
      | Throw => Throw
      | Ok lines => Ok (compareCountOf name actual expected :: lines)
      end
    end
  end.

(** "Compare with PSA standards" in [main], on the array [cleanData]
    returned. *)
Definition compareWithStandards (cleaned : list obj) : res (list string) :=
  compareAll (arrayObject cleaned) calls.

End CompareCount.

(** ** src/scripts/importPSGC.js: [insertBarangay] over the store *)

Module ImportPSGC.

(** A column value: text, or NULL. *)
Abbreviation column := (option string).

(** [v || null] on a text-or-null field: the empty text is falsy. *)
Definition orNull (v : column) : column :=
  match v with
  | Some s => if String.eqb s "" then None else Some s
  | None => None
  end.

(** A row of [barangays]. *)
Record barangayRow := {
  name : column;
  city_code : column;
  municipality_code : column;
  province_code : column;
  region_code : column;
  urban_rural : column
}.

(** The record [insertBarangay] receives: [code] is text, the other
    properties are text, or null/absent. *)
Record barangayData := {
  code : string;
  fields : barangayRow
}.

(** The tables.  Of the parent tables only the keys are read here, so a
    parent row is its [name]. *)
Record db := {
  regions : gmap string string;
  provinces : gmap string string;
  cities : gmap string string;
  municipalities : gmap string string;
  barangays : gmap string barangayRow
}.

(** A foreign key: NULL, or the key of a row of the parent table. *)
Definition references (parent : gmap string string) (v : column) : bool :=
  match v with
  | None => true
  | Some k => bool_decide (is_Some (parent !! k))
  end.

Definition notNull (v : column) : bool :=
  match v with Some _ => true | None => false end.

(** [INSERT OR REPLACE INTO barangays ...] under the schema's NOT NULL and
    FOREIGN KEY constraints (foreign keys are switched on): the statement
    fails, and the promise rejects, when one is violated. *)
Definition insertOrReplaceBarangay (d : db) (code : string) (row : barangayRow) : res db :=
  if notNull (name row) && notNull (province_code row) && notNull (region_code row)
     && references (cities d) (city_code row)
     && references (municipalities d) (municipality_code row)
     && references (provinces d) (province_code row)
     && references (regions d) (region_code row)
  then Ok {| regions := regions d; provinces := provinces d; cities := cities d;
             municipalities := municipalities d;
             barangays := <[code := row]> (barangays d) |}
  else Throw.

(** The parent links [insertBarangay] settles on: [(cityCode, municipalityCode)]. *)
Definition resolveParent (d : db) (data : barangayData) : column * column :=
  let cityMuniCode := substring 0 6 (code data) +:+ "000" in
  let cityCode := orNull (city_code (fields data)) in
  let municipalityCode := orNull (municipality_code (fields data)) in
  if negb (notNull cityCode) && negb (notNull municipalityCode) then
    let cityExists := cities d !! cityMuniCode in
    let muniExists := municipalities d !! cityMuniCode in
    match cityExists, muniExists with
    | Some _, _ => (Some cityMuniCode, municipalityCode)
    | None, Some _ => (cityCode, Some cityMuniCode)
    | None, None => (cityCode, municipalityCode)
    end
  else (cityCode, municipalityCode).

Definition insertBarangay (d : db) (data : barangayData) : res db :=
  let '(cityCode, municipalityCode) := resolveParent d data in
  insertOrReplaceBarangay d (code data)
    {| name := name (fields data);
       city_code := cityCode;
       municipality_code := municipalityCode;
       province_code := province_code (fields data);
       region_code := region_code (fields data);
       urban_rural := orNull (urban_rural (fields data)) |}.

End ImportPSGC.

(** ** src/scripts/importPSGC.js: ancestor codes and the separation by level *)

Module ImportExtract.

Import ImportCode.

(** [extractRegionCode(code)]. *)
Definition extractRegionCode (code : jsval) : option string :=
  match normalizeCode code with
  | None => None
  | Some normalized => Some (substring 0 2 normalized +:+ "0000000")
  end.

(** [extractProvinceCode(code)]. *)
Definition extractProvinceCode (code : jsval) : option string :=
  match normalizeCode code with
  | None => None
  | Some normalized => Some (substring 0 4 normalized +:+ "00000")
  end.

(** [extractDistrictCode(code)]. *)
Definition extractDistrictCode (code : jsval) : option string :=
  match normalizeCode code with
  | None => None
  | Some normalized =>
    if matchAll reDistrict normalized then
      let provincePattern := substring 0 4 normalized +:+ "00000" in
      if negb (String.eqb normalized provincePattern) then Some normalized else None
    else None
  end.

(** The list of [importData] a record is pushed to. *)
Inductive target :=
| regionsList | provincesList | citiesList | municipalitiesList | barangaysList.

(** "Classify by PSGC code pattern": the if-chain that closes the loop of
    [importData]; [None] when no branch is taken. *)
Definition targetOf (type : jsval) (code name : string) (item : obj) : option target :=
  if strictEq type (VStr "Region") || matchAll reRegion code then Some regionsList
  else if strictEq type (VStr "Province") || matchAll reProvince code
  then Some provincesList
  else if matchAll reCityMuni code then
    let isCity :=
      strictEq type (VStr "City")
      || includes "city of" (toLowerCase name)
      || endsWith " city" (toLowerCase name)
      || includes "city" (toLowerCase name)
      || truthy (get item "city_class")
      || truthy (get item "cityCode") in
    if isCity then Some citiesList else Some municipalitiesList
  else if strictEq type (VStr "Barangay")
          || (matchAll reNineDigits code && negb (matchEnd reTripleZero code))
  then Some barangaysList
  else None.

(** The body of the loop of [importData], as far as the choice of the list
    goes: [Ok None] for a record that is skipped or pushed nowhere. *)
Definition separate (item : obj) : res (option target) :=
  let code := normalizeCode (ors [get item "code"; get item "Code"; get item "CODE"]) in
  let type := ors [get item "type"; get item "Type"; get item "TYPE"] in
  match callTrim (ors [get item "name"; get item "Name"; get item "NAME"; VStr ""]) with
  | None => Throw
  | Some name =>
    match code with
    | None => Ok None
    | Some code =>
      if String.eqb code "000000000" then Ok None
      else Ok (targetOf type code name item)
    end
  end.

End ImportExtract.

(** ** src/scripts/validatePSGC.js: the counting loop of [validateDataFile] *)

Module ValidateFile.

Import ImportCode ValidatePSGC.

(** An entry of [samples]; [index] is kept for unknown patterns only. *)
Record sample := {
  s_code : string;
  s_name : string;
  s_type : jsval;
  s_index : option nat
}.

(** [counts], [samples] (one entry per bucket) and [issues]. *)
Record tally := {
  counts : bucket -> nat;
  samples : bucket -> list sample;
  issues : list string
}.

Definition start : tally :=
  {| counts := fun _ => 0; samples := fun _ => []; issues := [] |}.

(** How many samples a bucket keeps. *)
Definition cap (b : bucket) : nat :=
  match b with unknown => 5 | _ => 3 end.

Definition quote : string := String (ascii_of_nat 34) "".

(** [counts.b++; if (samples.b.length < cap) samples.b.push(...)], and for
    an unknown pattern the entry of [issues]. *)
Definition record (t : tally) (b : bucket) (index : nat) (code name : string)
    (type : jsval) : tally :=
  let s := {| s_code := code; s_name := name; s_type := type;
              s_index := if decide (b = unknown) then Some index else None |} in
  {| counts := fun b' => if decide (b' = b) then S (counts t b') else counts t b';
     samples := fun b' =>
       if decide (b' = b)
       then (if (length (samples t b') <? cap b)%nat
             then samples t b' ++ [s] else samples t b')
       else samples t b';
     issues :=
       if decide (b = unknown)
       then issues t ++ ["Unknown pattern at index " +:+ showZ (Z.of_nat index)
                           +:+ ": code=" +:+ code +:+ ", name=" +:+ quote
                           +:+ name +:+ quote]
       else issues t |}.

(** The body of [data.forEach((item, index) => ...)]; trimming a name that
    is not text raises, and nothing catches it. *)
Definition step (t : tally) (index : nat) (item : obj) : res tally :=
  let code := normalizeCode (ors [get item "code"; get item "Code"; get item "CODE"]) in
  match callTrim (ors [get item "name"; get item "Name"; get item "NAME"; VStr ""]) with
  | None => Throw
  | Some name =>
    let type := ors [get item "type"; get item "Type"; get item "TYPE"; VStr ""] in
    match code with
    | None => Ok t
    | Some code =>
      if String.eqb code "000000000" then Ok t
      else Ok (record t (bucketOf code name type) index code name type)
    end
  end.

Fixpoint loop (index : nat) (data : list obj) (t : tally) : res tally :=
  match data with
  | [] => Ok t
  | item :: rest =>
    match step t index item with
    | Ok t' => loop (S index) rest t'
    | Throw => Throw
    end
  end.

(** The five calls of [validateCount], in order, and the issues kept. *)
Definition validationIssues (t : tally) : list string :=
  omap (fun '(name, b, std) => snd (validateCount name (Z.of_nat (counts t b)) std))
       [("Regions", regions, PSA_regions);
        ("Provinces", provinces, PSA_provinces);
        ("Cities", cities, PSA_cities);
        ("Municipalities", municipalities, PSA_municipalities);
        ("Barangays", barangays, PSA_barangays)].

(** [validateDataFile(filePath)] on the parsed file: [counts], [issues],
    [samples] and [validationIssues]. *)
Definition validateDataFile (data : list obj) : res (tally * list string) :=
  match loop 0 data start with
  | Ok t => Ok (t, validationIssues t)
  | Throw => Throw
  end.

End ValidateFile.

(** ** The fetch script for PSGC Cloud: [convertToOurFormat] *)

Module CloudConvert.

Import CloudCode.

(** [a ? normalizeCode(a) : (b ? normalizeCode(b) : otherwise)]. *)
Definition codeFrom (a b otherwise : jsval) : jsval :=
  if truthy a then VStr (normalizeCode a)
  else if truthy b then VStr (normalizeCode b)
  else otherwise.

(** [item.is_capital || item['Is Capital'] || (item.capital === 'Yes' ? 1 : 0) || 0]. *)
Definition isCapital (item : obj) : jsval :=
  ors [get item "is_capital"; get item "Is Capital";
       (if strictEq (get item "capital") (VStr "Yes") then VNum 1 else VNum 0);
       VNum 0].

(** The callback of [items.map]: [None] for [null]. *)
Definition convertItem (type : string) (item : obj) : option (list (string * jsval)) :=
  let code := normalizeCode (ors [get item "code"; get item "Code"]) in
  let name := ors [get item "name"; get item "Name"; get item "Geographic Area"] in
  if negb (truthy (VStr code)) || negb (truthy name) then None
  else
    let base := [("code", VStr code); ("name", name)] in
    let region := codeFrom (get item "region_code") (get item "region")
                    (VStr (substring 0 2 code +:+ "0000000")) in
    let province := codeFrom (get item "province_code") (get item "province")
                      (VStr (substring 0 4 code +:+ "00000")) in
    if String.eqb type "region" then
      Some (base ++ [("island_group_code",
                      ors [get item "island_group_code"; get item "Island Group"; VNull]);
                     ("island_group_name",
                      ors [get item "island_group_name"; get item "Island Group Name";
                           VNull])])
    else if String.eqb type "province" then
      Some (base ++ [("region_code", region);
                     ("island_group_code", ors [get item "island_group_code"; VNull])])
    else if String.eqb type "city" then
      Some (base ++ [("province_code",
                      codeFrom (get item "province_code") (get item "province") VNull);
                     ("region_code", region);
                     ("city_class",
                      ors [get item "city_class"; get item "City Class";
                           get item "classification"; VNull]);
                     ("income_class",
                      ors [get item "income_class"; get item "Income Class"; VNull]);
                     ("is_capital", isCapital item)])
    else if String.eqb type "municipality" then
      Some (base ++ [("province_code", province);
                     ("region_code", region);
                     ("income_class",
                      ors [get item "income_class"; get item "Income Class"; VNull]);
                     ("is_capital", isCapital item)])
    else if String.eqb type "barangay" then
      Some (base ++ [("city_code",
                      codeFrom (get item "city_code") (get item "city") VNull);
                     ("municipality_code",
                      codeFrom (get item "municipality_code") (get item "municipality")
                               VNull);
                     ("province_code", province);
                     ("region_code", region);
                     ("urban_rural",
                      ors [get item "urban_rural"; get item "Urban/Rural";
                           get item "classification"; VNull])])
    else Some base.

(** [convertToOurFormat(items, type)]. *)
Definition convertToOurFormat (items : list obj) (type : string)
  : list (list (string * jsval)) :=
  omap (convertItem type) items.

End CloudConvert.

(** ** Vocabulary of the specification *)

Module Spec.

Fixpoint allDigits (s : string) : bool :=
  match s with
  | String c r => isDigit c && allDigits r
  | EmptyString => true
  end.

(** A valid geographic code: nine digits, not all zero. *)
Definition validCode (c : string) : bool :=
  (String.length c =? 9)%nat && allDigits c && negb (String.eqb c "000000000").

(** The shapes of a code, by the length of its all-zero suffix. *)
Inductive shape := Region | Province | District | CityMunicipality | Barangay.

Definition codeShape (c : string) : shape :=
  if String.eqb (substringFrom 2 c) "0000000" then Region
  else if String.eqb (substringFrom 4 c) "00000" then Province
  else if String.eqb (substringFrom 5 c) "0000" then District
  else if String.eqb (substringFrom 6 c) "000" then CityMunicipality
  else Barangay.

(** The four shapes the specification names. *)
Definition fourShapes : list shape := [Region; Province; CityMunicipality; Barangay].

Definition shapeOfLevel (l : CleanPSGCData.level) : shape :=
  match l with
  | CleanPSGCData.region => Region
  | CleanPSGCData.province => Province
  | CleanPSGCData.district => District
  | CleanPSGCData.city | CleanPSGCData.municipality => CityMunicipality
  | CleanPSGCData.barangay => Barangay
  end.

Definition shapeOfBucket (b : ValidatePSGC.bucket) : option shape :=
  match b with
  | ValidatePSGC.regions => Some Region
  | ValidatePSGC.provinces => Some Province
  | ValidatePSGC.districts => Some District
  | ValidatePSGC.cities | ValidatePSGC.municipalities => Some CityMunicipality
  | ValidatePSGC.barangays => Some Barangay
  | ValidatePSGC.unknown => None
  end.

(** XXYYZZ000: nine digits, digits 7-9 zero, digits 5-6 not both zero. *)
Definition cityMuniShape (c : string) : bool :=
  (String.length c =? 9)%nat && allDigits c
  && String.eqb (substringFrom 6 c) "000"
  && negb (String.eqb (substringFrom 4 c) "00000").

(** C1 as the specification words it: every classification of the code
    lands in one of the four shapes Region, Province, City/Municipality,
    Barangay. *)
Definition ClassifiedInFour (c : string) : Prop :=
  forall (name type : string) (row : obj),
  exists e,
    CleanPSGCData.classifyEntity (VStr c) (VStr name) (VStr type) row = Ok (Some e)
    /\ In (shapeOfLevel (CleanPSGCData.type e)) fourShapes.

(** A record of the shape XXYYZZ000 with every city signal set. *)
Definition paterosAsCity : obj :=
  {[ "code" := VStr "137606000"; "name" := VStr "Municipality of Pateros City";
     "type" := VStr "City"; "city_class" := VStr "HUC" ]}.

End Spec.

Import Spec.

(** The cleaning pass. *)
Module CleaningSpec.

Import CleanPSGCData.

(** The code and name under which [cleanData] takes a record up: it has a
    code, a non-empty name, and trimming its name and type raises nothing. *)
Definition accepted (item : obj) : option (string * string) :=
  match callTrim (ors [get item "name"; get item "Name"; VStr ""]),
        callTrim (ors [get item "type"; get item "Type";
                       get item "Geographic Level"; VStr ""]),
        CleanCode.normalizeCode (ors [get item "code"; get item "Code";
                                      get item "10-digit PSGC";
                                      get item "Correspondence Code"]) with
  | Some name, Some _, Some code =>
      if String.eqb name "" then None else Some (code, name)
  | _, _, _ => None
  end.

(** What the output is made of: the six lists and the set of seen codes. *)
Definition core (st : state) :=
  (regions st, provinces st, districts st, cities st, municipalities st,
   barangays st, seen st).

(** C2 as the specification words it: of two records [a], [b] with the same
    code in one batch, the later one replaces the earlier one in the output. *)
Definition LastSeenWins (l1 : list obj) (a : obj) (l2 : list obj) (b : obj)
    (l3 : list obj) : Prop :=
  cleanData (l1 ++ a :: l2 ++ b :: l3) = cleanData (l1 ++ l2 ++ b :: l3).

(** Two records of one batch with the same code. *)
Definition manilaFirst : obj :=
  {[ "code" := VStr "137401000"; "name" := VStr "City of Manila" ]}.
Definition manilaSecond : obj :=
  {[ "code" := VStr "137401000"; "name" := VStr "Manila" ]}.

End CleaningSpec.

(** The parent of a barangay. *)
Module ParentSpec.

Import ImportPSGC.

(** The constraints of [barangays] that do not concern the city or
    municipality link. *)
Definition insertable (d : db) (data : barangayData) : bool :=
  notNull (name (fields data))
  && notNull (province_code (fields data))
  && notNull (region_code (fields data))
  && references (provinces d) (province_code (fields data))
  && references (regions d) (region_code (fields data)).

Definition unparented (data : barangayData) : Prop :=
  orNull (city_code (fields data)) = None
  /\ orNull (municipality_code (fields data)) = None.

(** First six digits and "000". *)
Definition prefixOf (data : barangayData) : string :=
  substring 0 6 (code data) +:+ "000".

(** The links looked up for an unparented barangay: cities first. *)
Definition lookedUp (d : db) (data : barangayData) : column * column :=
  match cities d !! prefixOf data, municipalities d !! prefixOf data with
  | Some _, _ => (Some (prefixOf data), None)
  | None, Some _ => (None, Some (prefixOf data))
  | None, None => (None, None)
  end.

(** C5 as the specification words it: when neither table has the prefix, a
    municipality placeholder is synthesized and becomes the parent. *)
Definition SynthesizesMunicipality (d : db) (data : barangayData) : Prop :=
  forall d', insertBarangay d data = Ok d' ->
    is_Some (municipalities d' !! prefixOf data)
    /\ municipality_code <$> (barangays d' !! code data) = Some (Some (prefixOf data)).

(** A store with region 04 and province 0421, and no city or municipality;
    a barangay of 042111 that names no parent. *)
Definition caviteOnly : db :=
  {| regions := {[ "040000000" := "CALABARZON" ]};
     provinces := {[ "042100000" := "Cavite" ]};
     cities := ∅; municipalities := ∅; barangays := ∅ |}.

Definition orphanBarangay : barangayData :=
  {| code := "042111001";
     fields := {| name := Some "Barangay 1"; city_code := None;
                  municipality_code := None;
                  province_code := Some "042100000";
                  region_code := Some "040000000"; urban_rural := None |} |}.

(** The same store with the municipality 042111000. *)
Definition caviteWithKawit : db :=
  {| regions := regions caviteOnly; provinces := provinces caviteOnly;
     cities := ∅; municipalities := {[ "042111000" := "Kawit" ]};
     barangays := ∅ |}.

End ParentSpec.

(** The merge of two files. *)
Module MergeSpec.

Import FixMissingRecords.

(** The key of a record: its normalised code. *)
Definition codeOf (item : obj) : option string :=
  FixCode.normalizeCode (get item "code").

Definition codesOf (l : list obj) : gset string := list_to_set (omap codeOf l).

(** An entity set: every record has a code, and no code occurs twice. *)
Definition entitySet (l : list obj) : Prop :=
  Forall (fun x => is_Some (codeOf x)) l /\ NoDup (omap codeOf l).

(** The records of [source] that bring a code not yet known, each code once,
    in the order of [source]. *)
Fixpoint missingOf (known : gset string) (source : list obj) : list obj :=
  match source with
  | [] => []
  | x :: r =>
      match codeOf x with
      | Some c =>
          if decide (c ∈ known) then missingOf known r
          else x :: missingOf ({[c]} ∪ known) r
      | None => missingOf known r
      end
  end.

(** Each record brings a code that none before it and no known one has. *)
Fixpoint fresh (known : gset string) (l : list obj) : Prop :=
  match l with
  | [] => True
  | x :: r =>
      exists c, codeOf x = Some c /\ (c ∉ known) /\ fresh ({[c]} ∪ known) r
  end.

(** The records of the example: code A in both files, code B in the
    supplement only. *)
Definition baselineA : obj := {[ "code" := VStr "130000000"; "name" := VStr "baseline" ]}.
Definition supplementA : obj := {[ "code" := VStr "130000000"; "name" := VStr "supplement" ]}.
Definition supplementB : obj := {[ "code" := VStr "140000000"; "name" := VStr "supplement" ]}.

End MergeSpec.

(** Shapes where no district is told apart, and helpers on records. *)
Module ExtraSpec.

#[global] Instance shape_eq_dec : EqDecision shape.
Proof. solve_decision. Defined.

(** The shape of a code for a classifier that knows four shapes: a code
    with a four-zero suffix counts as City/Municipality. *)
Definition codeShape4 (c : string) : shape :=
  match codeShape c with District => CityMunicipality | s => s end.

Definition shapeOfKind (k : FixMissingRecords.kind) : shape :=
  match k with
  | FixMissingRecords.region => Region
  | FixMissingRecords.province => Province
  | FixMissingRecords.city | FixMissingRecords.municipality => CityMunicipality
  | FixMissingRecords.barangay => Barangay
  end.

Definition shapeOfTarget (t : ImportExtract.target) : shape :=
  match t with
  | ImportExtract.regionsList => Region
  | ImportExtract.provincesList => Province
  | ImportExtract.citiesList | ImportExtract.municipalitiesList => CityMunicipality
  | ImportExtract.barangaysList => Barangay
  end.

(** Nine digits, the all-zero code included. *)
Definition nineDigits (c : string) : bool :=
  (String.length c =? 9)%nat && allDigits c.

(** The positional ancestors of a code. *)
Definition regionOf (c : string) : string := substring 0 2 c +:+ "0000000".
Definition provinceOf (c : string) : string := substring 0 4 c +:+ "00000".
Definition cityMuniOf (c : string) : string := substring 0 6 c +:+ "000".

(** A property of a cleaned record ([undefined] when absent). *)
Fixpoint prop (k : string) (e : list (string * jsval)) : jsval :=
  match e with
  | [] => VUndefined
  | (k', v) :: r => if String.eqb k k' then v else prop k r
  end.

(** The raw code of a record, as [cleanData] normalises it. *)
Definition recordCode (item : obj) : option string :=
  CleanCode.normalizeCode (ors [get item "code"; get item "Code";
                                get item "10-digit PSGC";
                                get item "Correspondence Code"]).

(** No signal of a city on a record: no "city" in its name or type, in any
    letter case, and none of the city-class properties. *)
Definition noCitySignal (item : obj) (name type : string) : Prop :=
  includes "city" (toLowerCase name) = false
  /\ includes "city" (toLowerCase type) = false
  /\ Forall (fun k => truthy (get item k) = false)
       ["city_class"; "cityClass"; "City Class"; "city class";
        "city_classification"; "cityCode"].

(** The seven counters of the validator, summed. *)
Definition totalCount (counts : ValidatePSGC.bucket -> nat) : nat :=
  counts ValidatePSGC.regions + counts ValidatePSGC.provinces
  + counts ValidatePSGC.districts + counts ValidatePSGC.cities
  + counts ValidatePSGC.municipalities + counts ValidatePSGC.barangays
  + counts ValidatePSGC.unknown.

(** A municipality as the sources list it. *)
Definition kawit : obj :=
  {[ "code" := VStr "042111000"; "name" := VStr "Kawit"; "type" := VStr "Mun" ]}.

(** The codes of the records that [cleanData] takes up, in order. *)
Definition acceptedCodes (data : list obj) : list string :=
  fst <$> omap CleaningSpec.accepted data.

(** What [cleanData] has reported or kept so far: output, duplicates and
    invalid entries. *)
Definition accountedFor (st : CleanPSGCData.state) : nat :=
  length (CleanPSGCData.allData st) + length (CleanPSGCData.duplicates st)
  + length (CleanPSGCData.invalid st).

(** What holds of the output of [cleanData] at every step: the codes are
    pairwise distinct, and each is a valid code that was marked as seen and
    has not the district shape. *)
Definition cleanInv (st : CleanPSGCData.state) : Prop :=
  NoDup (prop "code" <$> CleanPSGCData.allData st)
  /\ Forall (fun e => exists c, prop "code" e = VStr c
                               /\ c ∈ CleanPSGCData.seen st
                               /\ validCode c = true
                               /\ codeShape c <> District)
            (CleanPSGCData.allData st).

(** An atom that only a digit can match. *)
Definition digitAtom (a : atom) : bool :=
  match a with Digit => true | Lit c => isDigit c end.

(** What the counting loop keeps: samples up to the cap, one issue per
    unknown pattern. *)
Definition tallyInv (t : ValidateFile.tally) : Prop :=
  (forall b, length (ValidateFile.samples t b)
             = Nat.min (ValidateFile.cap b) (ValidateFile.counts t b))
  /\ length (ValidateFile.issues t) = ValidateFile.counts t ValidatePSGC.unknown.

(** A record the counting loop counts: its place in the file, the bucket
    of its code, and the code, name and type the loop read. *)
Record entry := {
  e_index : nat;
  e_bucket : ValidatePSGC.bucket;
  e_code : string;
  e_name : string;
  e_type : jsval
}.

(** The record of the file at [index] as the loop counts it: no entry for a
    record without a code or with the all-zero code. *)
Definition counted (index : nat) (item : obj) : option entry :=
  match callTrim (ors [get item "name"; get item "Name"; get item "NAME"; VStr ""]),
        ImportCode.normalizeCode (ors [get item "code"; get item "Code"; get item "CODE"])
  with
  | Some name, Some code =>
      if String.eqb code "000000000" then None
      else
        let type := ors [get item "type"; get item "Type"; get item "TYPE"; VStr ""] in
        Some {| e_index := index;
                e_bucket := ValidatePSGC.bucketOf code name type;
                e_code := code; e_name := name; e_type := type |}
  | _, _ => None
  end.

(** The counted records of a file, in the order of the file. *)
Definition entries (data : list obj) : list entry :=
  omap id (imap counted data).

Definition ofBucket (b : ValidatePSGC.bucket) (es : list entry) : list entry :=
  filter (fun e => e_bucket e = b) es.

(** The sample and the issue text of a counted record. *)
Definition sampleOf (e : entry) : ValidateFile.sample :=
  {| ValidateFile.s_code := e_code e;
     ValidateFile.s_name := e_name e;
     ValidateFile.s_type := e_type e;
     ValidateFile.s_index :=
       if decide (e_bucket e = ValidatePSGC.unknown) then Some (e_index e)
       else None |}.

Definition issueOf (e : entry) : string :=
  "Unknown pattern at index " +:+ showZ (Z.of_nat (e_index e))
    +:+ ": code=" +:+ e_code e +:+ ", name=" +:+ ValidateFile.quote
    +:+ e_name e +:+ ValidateFile.quote.

(** A tally that stands for the counted records [es]: each counter is the
    number of records of its bucket, the samples are the first ones of the
    bucket up to its cap, and the issues are those of the unknown
    patterns, all in the order of the file. *)
Definition tallies (es : list entry) (t : ValidateFile.tally) : Prop :=
  (forall b,
      ValidateFile.counts t b = length (ofBucket b es)
      /\ ValidateFile.samples t b
         = sampleOf <$> take (ValidateFile.cap b) (ofBucket b es))
  /\ ValidateFile.issues t = issueOf <$> ofBucket ValidatePSGC.unknown es.

(** The name [convertToOurFormat] reads off a record. *)
Definition fetchedName (item : obj) : jsval :=
  ors [get item "name"; get item "Name"; get item "Geographic Area"].

(** A record with a district-shaped code. *)
Definition firstDistrict : obj :=
  {[ "code" := VStr "133910000"; "name" := VStr "First District" ]}.

(** Four regions, a code that is no code, and a record without a code. *)
Definition sixRecords : list obj :=
  [ {[ "code" := VStr "010000000"; "name" := VStr "Region I" ]};
    {[ "code" := VStr "020000000"; "name" := VStr "Region II" ]};
    {[ "code" := VStr "030000000"; "name" := VStr "Region III" ]};
    {[ "code" := VStr "040000000"; "name" := VStr "Region IV-A" ]};
    {[ "code" := VStr "PH-1"; "name" := VStr "Somewhere" ]};
    {[ "name" := VStr "No code" ]} ].

(** A barangay that names a city the store does not have. *)
Definition danglingBarangay : ImportPSGC.barangayData :=
  {| ImportPSGC.code := "042111001";
     ImportPSGC.fields :=
       {| ImportPSGC.name := Some "Barangay 1";
          ImportPSGC.city_code := Some "042199000";
          ImportPSGC.municipality_code := None;
          ImportPSGC.province_code := Some "042100000";
          ImportPSGC.region_code := Some "040000000";
          ImportPSGC.urban_rural := None |} |}.

End ExtraSpec.

Import ExtraSpec.

(** ** Strings: lengths, digits, trimming *)

Section StringFacts.

Lemma length_append (s t : string) :
  String.length (s +:+ t) = String.length s + String.length t.
Proof. induction s as [|c s IH]; simpl; [reflexivity | now rewrite IH]. Qed.

Lemma length_replicate (n : nat) (c : ascii) : String.length (replicate n c) = n.
Proof. induction n; simpl; congruence. Qed.

Lemma length_prefix (n : nat) (s : string) :
  String.length (String.substring 0 n s) = Nat.min n (String.length s).
Proof.
  revert s; induction n as [|n IH]; intros [|c s]; simpl; try reflexivity.
  now rewrite IH.
Qed.

Lemma length_padStart (n : nat) (c : ascii) (s : string) :
  String.length (padStart n c s) = Nat.max n (String.length s).
Proof. unfold padStart. rewrite length_append, length_replicate. lia. Qed.

(** Padding to nine and cutting at nine leaves exactly nine code units. *)
Lemma length_pad_cut (c : ascii) (s : string) :
  String.length (substring 0 9 (padStart 9 c s)) = 9.
Proof. unfold substring. rewrite length_prefix, length_padStart. lia. Qed.

Lemma prefix_whole (s : string) : String.substring 0 (String.length s) s = s.
Proof. induction s as [|c s IH]; simpl; [reflexivity | now rewrite IH]. Qed.

Lemma pad_cut_nine (c : ascii) (s : string) :
  String.length s = 9 -> substring 0 9 (padStart 9 c s) = s.
Proof.
  intros H. unfold padStart, substring. rewrite H. simpl replicate.
  change (9 - 0) with 9. rewrite <- H at 1. apply prefix_whole.
Qed.

Lemma allDigits_append (s t : string) :
  allDigits (s +:+ t) = allDigits s && allDigits t.
Proof.
  induction s as [|c s IH]; simpl; [reflexivity|].
  now rewrite IH, andb_assoc.
Qed.

Lemma allDigits_zeros (n : nat) : allDigits (replicate n "0") = true.
Proof. induction n; simpl; auto. Qed.

Lemma allDigits_prefix (n : nat) (s : string) :
  allDigits s = true -> allDigits (String.substring 0 n s) = true.
Proof.
  revert s; induction n as [|n IH]; intros [|c s]; simpl; auto.
  intros [-> H]%andb_true_iff. simpl. auto.
Qed.

Lemma allDigits_strip (s : string) : allDigits (stripNonDigits s) = true.
Proof.
  induction s as [|c s IH]; simpl; [reflexivity|].
  destruct (isDigit c) eqn:E; simpl; [now rewrite E|assumption].
Qed.

Lemma strip_digits (s : string) : allDigits s = true -> stripNonDigits s = s.
Proof.
  induction s as [|c s IH]; simpl; [reflexivity|].
  intros [-> H]%andb_true_iff. now rewrite IH.
Qed.

Lemma digit_not_space (c : ascii) : isDigit c = true -> isWhiteSpace c = false.
Proof.
  unfold isDigit, isWhiteSpace. intros [H1 H2]%andb_true_iff.
  apply Nat.leb_le in H1, H2.
  repeat (apply orb_false_iff; split);
    [apply andb_false_iff; right; apply Nat.leb_gt; lia
    | apply Nat.eqb_neq; lia | apply Nat.eqb_neq; lia].
Qed.

Lemma trimStart_digits (s : string) : allDigits s = true -> trimStart s = s.
Proof.
  destruct s as [|c s]; simpl; [reflexivity|].
  intros [H _]%andb_true_iff. now rewrite (digit_not_space _ H).
Qed.

Lemma trimEnd_digits (s : string) : allDigits s = true -> trimEnd s = s.
Proof.
  induction s as [|c s IH]; simpl; [reflexivity|].
  intros [Hc H]%andb_true_iff. rewrite (IH H), (digit_not_space _ Hc).
  now destruct s.
Qed.

Lemma trim_digits (s : string) : allDigits s = true -> trim s = s.
Proof.
  intros H. unfold trim. rewrite (trimStart_digits _ H). now apply trimEnd_digits.
Qed.

Lemma eqb_empty_length (s : string) :
  String.eqb s "" = (String.length s =? 0)%nat.
Proof. now destruct s. Qed.

End StringFacts.

(** ** Normalisation *)

Section Normalisation.

(** Whatever [normalizeCode] of the cleaning script returns is nine digits. *)
Lemma clean_normalize_shape (x : jsval) (s : string) :
  CleanCode.normalizeCode x = Some s ->
  String.length s = 9 /\ allDigits s = true.
Proof.
  unfold CleanCode.normalizeCode.
  destruct (negb (truthy x)); [discriminate|].
  destruct (_ =? 0)%nat; [discriminate|].
  intros [= <-]. split; [apply length_pad_cut|].
  unfold substring, padStart. apply allDigits_prefix.
  now rewrite allDigits_append, allDigits_zeros, allDigits_strip.
Qed.

(** A nine-digit string is its own normal form. *)
Lemma clean_normalize_fixed (s : string) :
  String.length s = 9 -> allDigits s = true ->
  CleanCode.normalizeCode (VStr s) = Some s.
Proof.
  intros Hlen Hdig. unfold CleanCode.normalizeCode. simpl truthy.
  rewrite eqb_empty_length, Hlen. simpl negb. cbv iota.
  simpl toStr. rewrite (trim_digits _ Hdig), (strip_digits _ Hdig), Hlen.
  simpl Nat.eqb. cbv iota. now rewrite pad_cut_nine.
Qed.

Lemma import_normalize_fixed (s : string) :
  String.length s = 9 -> allDigits s = true ->
  ImportCode.normalizeCode (VStr s) = Some s.
Proof.
  intros Hlen Hdig. unfold ImportCode.normalizeCode. simpl truthy.
  rewrite eqb_empty_length, Hlen. simpl negb. cbv iota.
  simpl toStr. rewrite (trim_digits _ Hdig), Hlen.
  simpl Nat.eqb. cbv iota. now rewrite pad_cut_nine.
Qed.

(** The download script drops the leading zero of any ten-character text
    that starts with one. *)
Lemma psa_normalize_ten (s : string) :
  String.length s = 9 -> PsaCode.normalizeCode (VStr (String "0" s)) = Some s.
Proof.
  intros Hlen. unfold PsaCode.normalizeCode. simpl. now rewrite Hlen.
Qed.

(** C3: on the ten-digit input "0137401000" the normalisers of the two
    download scripts drop the leading zero and return "137401000", as the
    specification asks; [normalizeCode] of the cleaning script, which reads
    the "10-digit PSGC" column, instead cuts the trailing digit and returns
    "013740100". *)
Theorem C3_ten_digit_normalize :
  PsaCode.normalizeCode (VStr "0137401000") = Some "137401000"
  /\ CloudCode.normalizeCode (VStr "0137401000") = "137401000"
  /\ CleanCode.normalizeCode (VStr "0137401000") = Some "013740100"
  /\ CleanCode.normalizeCode (VStr "0137401000") <> Some "137401000".
Proof. repeat split; try reflexivity. discriminate. Qed.

(** C8: [normalizeCode] of the cleaning script is idempotent: when it
    returns a code for a raw value, normalising that code returns it again. *)
Theorem C8_normalize_idempotent (x : jsval) (s : string) :
  CleanCode.normalizeCode x = Some s ->
  CleanCode.normalizeCode (VStr s) = CleanCode.normalizeCode x.
Proof.
  intros H. rewrite H. destruct (clean_normalize_shape _ _ H).
  now apply clean_normalize_fixed.
Qed.

Lemma C8_normalize_idempotent_witness :
  CleanCode.normalizeCode (VStr " 42-11 ") = Some "000004211"
  /\ CleanCode.normalizeCode (VStr "000004211")
     = CleanCode.normalizeCode (VStr " 42-11 ").
Proof.
  split; [reflexivity|].
  apply (C8_normalize_idempotent (VStr " 42-11 ") "000004211"). reflexivity.
Defined.

(** C9: whenever [normalizeCode] (the cleaning script's, and the import
    script's) does not return null, the string it returns has length
    exactly nine. *)
Theorem C9_normalize_length_nine (x : jsval) (s : string) :
  CleanCode.normalizeCode x = Some s \/ ImportCode.normalizeCode x = Some s ->
  String.length s = 9.
Proof.
  unfold CleanCode.normalizeCode, ImportCode.normalizeCode.
  destruct (negb (truthy x)); [intros [|]; discriminate|].
  intros [H|H]; destruct (_ =? 0)%nat; try discriminate;
    injection H as <-; apply length_pad_cut.
Qed.

Lemma C9_normalize_length_nine_witness :
  CleanCode.normalizeCode (VNum 1374010001234) = Some "137401000"
  /\ String.length "137401000" = 9.
Proof.
  split; [reflexivity|].
  apply (C9_normalize_length_nine (VNum 1374010001234)). left. reflexivity.
Defined.

End Normalisation.

(** ** The patterns, read on the digits of a code *)

Section Patterns.

Lemma matchAll_length (p : list atom) (s : string) :
  matchAll p s = true -> String.length s = length p.
Proof.
  revert s; induction p as [|a p IH]; intros [|c s]; simpl; try discriminate; auto.
  intros [_ H]%andb_true_iff. f_equal. auto.
Qed.

Lemma matchAll_other_length (p : list atom) (s : string) :
  String.length s <> length p -> matchAll p s = false.
Proof.
  intros H. destruct (matchAll p s) eqn:E; [|reflexivity].
  now apply matchAll_length in E.
Qed.

Lemma matchAll_zeros (k : nat) (s : string) :
  matchAll (repeat (Lit "0") k) s = String.eqb s (replicate k "0").
Proof.
  revert s; induction k as [|k IH]; intros [|c s];
    cbn [matchAll repeat replicate atomMatches String.eqb]; try reflexivity.
  now rewrite IH, (Ascii.eqb_sym "0" c).
Qed.

Lemma substringFrom_0 (s : string) : substringFrom 0 s = s.
Proof. now destruct s. Qed.

Lemma matchAll_digitsThenZeros (n k : nat) (s : string) :
  allDigits s = true -> n <= String.length s ->
  matchAll (digitsThenZeros n k) s = String.eqb (substringFrom n s) (replicate k "0").
Proof.
  unfold digitsThenZeros. revert s; induction n as [|n IH]; intros s Hd Hn.
  - rewrite substringFrom_0. apply matchAll_zeros.
  - destruct s as [|c s]; simpl in Hn; [lia|].
    simpl in Hd. apply andb_true_iff in Hd as [Hc Hd].
    simpl. rewrite Hc. apply IH; [assumption | lia].
Qed.

Lemma matchAll_digits (s : string) :
  allDigits s = true -> matchAll (repeat Digit (String.length s)) s = true.
Proof.
  induction s as [|c s IH]; simpl; [reflexivity|].
  intros [-> H]%andb_true_iff. auto.
Qed.

Lemma matchEnd_short (p : list atom) (s : string) :
  String.length s < length p -> matchEnd p s = false.
Proof.
  induction s as [|c s IH]; intros H; simpl matchEnd.
  - rewrite matchAll_other_length; [reflexivity | simpl in *; lia].
  - rewrite matchAll_other_length by lia. apply IH. simpl in H. lia.
Qed.

Lemma matchEnd_suffix (p : list atom) (s : string) :
  length p <= String.length s ->
  matchEnd p s = matchAll p (substringFrom (String.length s - length p) s).
Proof.
  induction s as [|c s IH]; intros H.
  - simpl. now rewrite orb_false_r.
  - simpl matchEnd. simpl String.length in *.
    destruct (decide (length p = S (String.length s))) as [E|E].
    + rewrite matchEnd_short by lia. rewrite E, Nat.sub_diag, orb_false_r.
      reflexivity.
    + rewrite matchAll_other_length by (simpl; lia). simpl orb.
      rewrite IH by lia.
      replace (S (String.length s) - length p)
        with (S (String.length s - length p)) by lia.
      reflexivity.
Qed.

(** On a valid code the five tests of the classifiers read the zero suffix. *)
Lemma patterns_of_valid (c : string) :
  validCode c = true ->
  matchAll reRegion c = String.eqb (substringFrom 2 c) "0000000"
  /\ matchAll reProvince c = String.eqb (substringFrom 4 c) "00000"
  /\ matchAll reDistrict c = String.eqb (substringFrom 5 c) "0000"
  /\ matchAll reCityMuni c = String.eqb (substringFrom 6 c) "000"
  /\ matchAll reNineDigits c = true
  /\ matchEnd reTripleZero c = String.eqb (substringFrom 6 c) "000".
Proof.
  unfold validCode. intros [[Hlen Hdig]%andb_true_iff _]%andb_true_iff.
  apply Nat.eqb_eq in Hlen.
  unfold reRegion, reProvince, reDistrict, reCityMuni.
  rewrite !matchAll_digitsThenZeros by (assumption || lia).
  repeat split.
  - unfold reNineDigits. rewrite <- Hlen. now apply matchAll_digits.
  - rewrite matchEnd_suffix by (simpl; lia). rewrite Hlen.
    apply (matchAll_zeros 3).
Qed.

Lemma callTrim_text (s : string) :
  exists t, callTrim (orElse (VStr s) (VStr "")) = Some t.
Proof. unfold orElse. destruct (truthy (VStr s)); simpl; eauto. Qed.

End Patterns.

(** ** Classification by shape *)

Section Classification.

(** C1, counterexample: the valid code "133910000" is classified, but as a
    district, a fifth shape outside the four of the specification. *)
Lemma C1_district_counterexample :
  validCode "133910000" = true /\ ~ ClassifiedInFour "133910000".
Proof.
  split; [reflexivity|].
  intros H. destruct (H "" "" ∅) as (e & He & Hin).
  vm_compute in He. injection He as <-.
  simpl in Hin. intuition discriminate.
Qed.

(** C1, amended: for every valid (nine-digit, not all-zero) code the
    classifier of the cleaning script returns an entity, never null, whose
    shape is the one of five (Region, Province, District, City/Municipality,
    Barangay) fixed by the zero suffix of the code; the validator's if-chain
    takes the same branch, on the same normalised code, and never the
    unknown one. *)
Theorem C1_classification_total (c : string) :
  validCode c = true ->
  (forall (name type : string) (row : obj),
    exists e,
      CleanPSGCData.classifyEntity (VStr c) (VStr name) (VStr type) row = Ok (Some e)
      /\ CleanPSGCData.code e = c
      /\ shapeOfLevel (CleanPSGCData.type e) = codeShape c)
  /\ ImportCode.normalizeCode (VStr c) = Some c
  /\ (forall (name : string) (type : jsval),
      shapeOfBucket (ValidatePSGC.bucketOf c name type) = Some (codeShape c)).
Proof.
  intros Hv. destruct (patterns_of_valid c Hv) as (Hr & Hp & Hd & Hc & Hn & Hz).
  pose proof Hv as Hv'. unfold validCode in Hv'.
  apply andb_true_iff in Hv' as [[Hlen Hdig]%andb_true_iff Hnz].
  apply Nat.eqb_eq in Hlen. apply negb_true_iff in Hnz.
  split; [|split; [now apply import_normalize_fixed|]].
  - intros name type row. unfold CleanPSGCData.classifyEntity.
    rewrite (clean_normalize_fixed c Hlen Hdig), Hnz.
    destruct (callTrim_text name) as [n ->], (callTrim_text type) as [t ->].
    rewrite Hr, Hp, Hd, Hc, Hn, Hz. unfold codeShape.
    destruct (String.eqb (substringFrom 2 c) "0000000"); [eexists; repeat split|].
    destruct (String.eqb (substringFrom 4 c) "00000"); [eexists; repeat split|].
    destruct (String.eqb (substringFrom 5 c) "0000"); [eexists; repeat split|].
    destruct (String.eqb (substringFrom 6 c) "000"); simpl.
    + match goal with |- context [if ?b then _ else _] => destruct b end;
        eexists; repeat split.
    + eexists; repeat split.
  - intros name type. unfold ValidatePSGC.bucketOf.
    rewrite Hr, Hp, Hd, Hc, Hn, Hz. unfold codeShape.
    destruct (String.eqb (substringFrom 2 c) "0000000"); [reflexivity|].
    destruct (String.eqb (substringFrom 4 c) "00000"); [reflexivity|].
    destruct (String.eqb (substringFrom 5 c) "0000"); [reflexivity|].
    destruct (String.eqb (substringFrom 6 c) "000"); simpl.
    + match goal with |- context [if ?b then _ else _] => destruct b end;
        reflexivity.
    + reflexivity.
Qed.

Lemma C1_classification_total_witness :
  validCode "137401000" = true
  /\ (exists e,
        CleanPSGCData.classifyEntity (VStr "137401000") (VStr "City of Manila")
          (VStr "") ∅ = Ok (Some e)
        /\ CleanPSGCData.code e = "137401000"
        /\ shapeOfLevel (CleanPSGCData.type e) = CityMunicipality).
Proof.
  split; [reflexivity|].
  exact (proj1 (C1_classification_total "137401000" eq_refl) "City of Manila" "" ∅).
Defined.

End Classification.

(** ** Duplicates in the cleaning pass *)

Section Cleaning.

Import CleanPSGCData CleaningSpec.

Lemma cleanFrom_app (l l' : list obj) (i : nat) (st : state) :
  cleanFrom i (l ++ l') st = cleanFrom (i + length l) l' (cleanFrom i l st).
Proof.
  revert i st; induction l as [|x l IH]; intros i st; simpl.
  - now rewrite Nat.add_0_r.
  - rewrite IH. f_equal. lia.
Qed.

Lemma cleanItem_core (st st' : state) (i i' : nat) (item : obj) :
  core st = core st' -> core (cleanItem st i item) = core (cleanItem st' i' item).
Proof.
  destruct st, st'. unfold core. simpl. intros [= -> -> -> -> -> -> ->].
  unfold cleanItem. cbn [seen]. repeat case_match; reflexivity.
Qed.

Lemma cleanFrom_core (data : list obj) (st st' : state) (i i' : nat) :
  core st = core st' -> core (cleanFrom i data st) = core (cleanFrom i' data st').
Proof.
  revert st st' i i'; induction data as [|x data IH]; intros st st' i i' H; simpl.
  - assumption.
  - apply IH. now apply cleanItem_core.
Qed.

(** How many duplicates one record adds depends on the core only. *)
Lemma cleanItem_duplicates (st st' : state) (i i' : nat) (item : obj) :
  core st = core st' ->
  length (duplicates (cleanItem st i item)) + length (duplicates st')
  = length (duplicates (cleanItem st' i' item)) + length (duplicates st).
Proof.
  destruct st, st'. unfold core. simpl. intros [= -> -> -> -> -> -> ->].
  unfold cleanItem. cbn [seen].
  repeat case_match; simpl; rewrite ?length_app; simpl; lia.
Qed.

Lemma cleanFrom_duplicates (data : list obj) (st st' : state) (i i' : nat) :
  core st = core st' ->
  length (duplicates (cleanFrom i data st)) + length (duplicates st')
  = length (duplicates (cleanFrom i' data st')) + length (duplicates st).
Proof.
  revert st st' i i'; induction data as [|x data IH]; intros st st' i i' H; simpl.
  - lia.
  - pose proof (cleanItem_duplicates st st' i i' x H).
    pose proof (IH _ _ (S i) (S i') (cleanItem_core st st' i i' x H)). lia.
Qed.

Lemma cleanItem_seen_mono (st : state) (i : nat) (item : obj) (c : string) :
  c ∈ seen st -> c ∈ seen (cleanItem st i item).
Proof.
  intros H. unfold cleanItem. repeat case_match; simpl; set_solver.
Qed.

Lemma cleanFrom_seen_mono (data : list obj) (st : state) (i : nat) (c : string) :
  c ∈ seen st -> c ∈ seen (cleanFrom i data st).
Proof.
  revert st i; induction data as [|x data IH]; intros st i H; simpl; [assumption|].
  apply IH. now apply cleanItem_seen_mono.
Qed.

Lemma cleanItem_duplicates_mono (st : state) (i : nat) (item : obj) (d : duplicateEntry) :
  In d (duplicates st) -> In d (duplicates (cleanItem st i item)).
Proof.
  intros H. unfold cleanItem. repeat case_match; simpl; try assumption.
  apply in_or_app. now left.
Qed.

Lemma cleanFrom_duplicates_mono (data : list obj) (st : state) (i : nat)
    (d : duplicateEntry) :
  In d (duplicates st) -> In d (duplicates (cleanFrom i data st)).
Proof.
  revert st i; induction data as [|x data IH]; intros st i H; simpl; [assumption|].
  apply IH. now apply cleanItem_duplicates_mono.
Qed.

(** Reads [accepted item = Some (c, n)] off the three tests of [cleanItem]. *)
Local Ltac accepted_inv H :=
  destruct (callTrim (ors [get _ "name"; _; _])) as [?name|]; [|discriminate H];
  destruct (callTrim (ors [get _ "type"; _; _; _])) as [?type|]; [|discriminate H];
  destruct (CleanCode.normalizeCode _) as [?code|]; [|discriminate H];
  destruct (String.eqb _ ""); [discriminate H|];
  injection H as -> ->.

(** An accepted record leaves its code in the set of seen codes. *)
Lemma accepted_seen (st : state) (i : nat) (item : obj) (c n : string) :
  accepted item = Some (c, n) -> c ∈ seen (cleanItem st i item).
Proof.
  unfold accepted, cleanItem. intros H. accepted_inv H.
  destruct (decide (c ∈ seen st)); [assumption|].
  repeat case_match; simpl; set_solver.
Qed.

(** An accepted record whose code was seen is only recorded as a duplicate. *)
Lemma accepted_duplicate (st : state) (i : nat) (item : obj) (c n : string) :
  accepted item = Some (c, n) -> c ∈ seen st ->
  cleanItem st i item
  = pushDuplicate {| dup_index := i; dup_code := c; dup_name := n |} st.
Proof.
  unfold accepted, cleanItem. intros H Hin. accepted_inv H.
  now destruct (decide (c ∈ seen st)).
Qed.

Lemma allData_core (st st' : state) : core st = core st' -> allData st = allData st'.
Proof. unfold core, allData. now intros [= -> -> -> -> -> -> _]. Qed.

(** C2, counterexample: two records with the code "137401000"; the output
    keeps the first one and not, as the specification has it, the second. *)
Lemma C2_last_seen_counterexample :
  accepted manilaFirst = Some ("137401000", "City of Manila")
  /\ accepted manilaSecond = Some ("137401000", "Manila")
  /\ cleanData [manilaFirst; manilaSecond] = cleanData [manilaFirst]
  /\ ~ LastSeenWins [] manilaFirst [] manilaSecond [].
Proof.
  repeat split; try (vm_compute; reflexivity).
  unfold LastSeenWins. vm_compute. discriminate.
Qed.

(** C2, amended: when the same normalised code appears twice within one
    batch of the cleaning pass, the first-seen record wins: the later
    occurrence is left out of the output, which is the output of the batch
    without it, and the event is counted as a duplicate in the report. *)
Theorem C2_first_seen_wins (l1 l2 l3 : list obj) (a b : obj) (c na nb : string) :
  accepted a = Some (c, na) ->
  accepted b = Some (c, nb) ->
  cleanData (l1 ++ a :: l2 ++ b :: l3) = cleanData (l1 ++ a :: l2 ++ l3)
  /\ duplicatesRemoved (l1 ++ a :: l2 ++ b :: l3)
     = S (duplicatesRemoved (l1 ++ a :: l2 ++ l3))
  /\ In {| dup_index := length (l1 ++ a :: l2); dup_code := c; dup_name := nb |}
        (duplicates (cleanRun (l1 ++ a :: l2 ++ b :: l3))).
Proof.
  intros Ha Hb.
  unfold cleanData, duplicatesRemoved, cleanRun.
  replace (l1 ++ a :: l2 ++ b :: l3) with ((l1 ++ a :: l2) ++ b :: l3)
    by now rewrite <- app_assoc.
  replace (l1 ++ a :: l2 ++ l3) with ((l1 ++ a :: l2) ++ l3)
    by now rewrite <- app_assoc.
  rewrite !(cleanFrom_app (l1 ++ a :: l2)). simpl cleanFrom.
  set (st := cleanFrom 0 (l1 ++ a :: l2) init).
  assert (Hseen : c ∈ seen st).
  { subst st. rewrite cleanFrom_app. simpl cleanFrom.
    apply cleanFrom_seen_mono. eapply accepted_seen, Ha. }
  rewrite (accepted_duplicate st _ b c nb Hb Hseen).
  set (d := {| dup_index := _; dup_code := c; dup_name := nb |}).
  assert (Hcore : core (pushDuplicate d st) = core st) by reflexivity.
  repeat split.
  - apply allData_core. now apply cleanFrom_core.
  - pose proof (cleanFrom_duplicates l3 _ _
      (S (length (l1 ++ a :: l2))) (length (l1 ++ a :: l2)) Hcore) as H.
    change (duplicates (pushDuplicate d st)) with (duplicates st ++ [d]) in H.
    rewrite (length_app (duplicates st)) in H. change (length [d]) with 1 in H.
    lia.
  - apply cleanFrom_duplicates_mono. simpl. apply in_or_app. right. now left.
Qed.

Lemma C2_first_seen_wins_witness :
  cleanData ([] ++ manilaFirst :: [] ++ manilaSecond :: [])
  = cleanData ([] ++ manilaFirst :: [] ++ [])
  /\ duplicatesRemoved ([] ++ manilaFirst :: [] ++ manilaSecond :: [])
     = S (duplicatesRemoved ([] ++ manilaFirst :: [] ++ []))
  /\ In {| dup_index := 1; dup_code := "137401000"; dup_name := "Manila" |}
        (duplicates (cleanRun ([] ++ manilaFirst :: [] ++ manilaSecond :: []))).
Proof.
  apply (C2_first_seen_wins [] [] [] manilaFirst manilaSecond
           "137401000" "City of Manila" "Manila");
    vm_compute; reflexivity.
Defined.

End Cleaning.

(** ** City or municipality *)

Section Disambiguation.

Lemma substringFrom_add (n m : nat) (s : string) :
  substringFrom (n + m) s = substringFrom m (substringFrom n s).
Proof.
  revert s; induction n as [|n IH]; intros s.
  - now rewrite substringFrom_0.
  - destruct s as [|c s]; [now destruct m | apply IH].
Qed.

(** A code of the shape XXYYZZ000 fails the region and province tests and
    passes the city/municipality test. *)
Lemma patterns_of_cityMuni (c : string) :
  cityMuniShape c = true ->
  String.length c = 9
  /\ matchAll reRegion c = false
  /\ matchAll reProvince c = false
  /\ matchAll reCityMuni c = true.
Proof.
  unfold cityMuniShape.
  intros [[[Hlen Hdig]%andb_true_iff Hz]%andb_true_iff Hp]%andb_true_iff.
  apply Nat.eqb_eq in Hlen. apply negb_true_iff in Hp.
  unfold reRegion, reProvince, reCityMuni.
  rewrite !matchAll_digitsThenZeros by (assumption || lia).
  repeat split; try assumption.
  apply String.eqb_neq. intros H. apply String.eqb_neq in Hp. apply Hp.
  change 4 with (2 + 2). now rewrite substringFrom_add, H.
Qed.

Lemma startsWith_lower (p s : string) :
  startsWith p s = true -> startsWith (toLowerCase p) (toLowerCase s) = true.
Proof.
  revert s; induction p as [|a p IH]; intros [|b s]; simpl; try discriminate; auto.
  intros [->%Ascii.eqb_eq H]%andb_true_iff.
  now rewrite Ascii.eqb_refl, IH.
Qed.

Lemma includes_lower (p s : string) :
  includes p s = true -> includes (toLowerCase p) (toLowerCase s) = true.
Proof.
  induction s as [|b s IH].
  - simpl. rewrite !orb_false_r. apply (startsWith_lower p "").
  - cbn [includes toLowerCase]. intros [H|H]%orb_true_iff.
    + apply (startsWith_lower p (String b s)) in H.
      cbn [toLowerCase] in H. now rewrite H.
    + rewrite (IH H). apply orb_true_r.
Qed.

Lemma lowerOf_text (s : string) :
  FixMissingRecords.lowerOf (VStr s) = Some (toLowerCase s).
Proof. now destruct s. Qed.

(** C4: in [classifyEntity] of fixMissingRecords.js a record of the shape
    XXYYZZ000 whose name contains "municipality of" (as written, or in any
    letter case) is a municipality whatever its type, city-class attributes
    or other words of the name; in
    [classifyEntity] of cleanPSGCData.js the rule is missing, and the record
    137606000 "Municipality of Pateros" with type "City" comes out a city. *)
Theorem C4_municipality_of (item : obj) (c n t : string) :
  (FixCode.normalizeCode (get item "code") = Some c ->
   cityMuniShape c = true ->
   get item "name" = VStr n ->
   includes "municipality of" n = true
   \/ includes "municipality of" (toLowerCase n) = true ->
   FixMissingRecords.lowerOf (get item "type") = Some t ->
   FixMissingRecords.classifyEntity item = Ok (Some FixMissingRecords.municipality))
  /\ (exists e,
        CleanPSGCData.classifyEntity (VStr "137606000")
          (VStr "Municipality of Pateros") (VStr "City") ∅ = Ok (Some e)
        /\ CleanPSGCData.type e = CleanPSGCData.city).
Proof.
  split.
  - intros Hc Hshape Hn Hinc Ht.
    destruct (patterns_of_cityMuni c Hshape) as (_ & Hr & Hp & Hcm).
    unfold FixMissingRecords.classifyEntity.
    rewrite Hc, Hr, Hp, Hcm, Hn, lowerOf_text, Ht.
    assert (Hlow : includes "municipality of" (toLowerCase n) = true).
    { destruct Hinc as [Hinc|Hinc]; [|assumption].
      apply (includes_lower "municipality of") in Hinc. exact Hinc. }
    now rewrite Hlow.
  - eexists. split; vm_compute; reflexivity.
Qed.

Lemma C4_municipality_of_witness :
  FixMissingRecords.classifyEntity paterosAsCity
  = Ok (Some FixMissingRecords.municipality).
Proof.
  apply (proj1 (C4_municipality_of paterosAsCity "137606000"
                  "Municipality of Pateros City" "city"));
    try reflexivity. right. reflexivity.
Defined.

End Disambiguation.

(** ** Counts against the PSA standards *)

Section Standards.

Import ValidatePSGC.

Lemma verdictOf_zero_tolerance (actual : Z) (std : standard) :
  min std = exact std -> max std = exact std -> actual <> exact std ->
  verdictOf actual std = OutOfRange (actual - exact std).
Proof.
  intros Hmin Hmax Hne. unfold verdictOf. rewrite Hmin, Hmax.
  destruct (Z.eqb_spec actual (exact std)); [contradiction|].
  destruct (Z.leb_spec (exact std) actual), (Z.leb_spec actual (exact std));
    simpl; try reflexivity. lia.
Qed.

Lemma showZ_index_digit (i : nat) :
  exists c r, showZ (Z.of_nat i) = String c r /\ isDigit c = true.
Proof.
  unfold showZ. destruct (Z.of_nat i) as [|p|p] eqn:E; [| |lia].
  - eexists _, _. split; reflexivity.
  - cbn [Z.to_int NilZero.string_of_int].
    destruct (Pos.to_uint p); eexists _, _; split; reflexivity.
Qed.

(** A property of the array whose name is neither an index nor [length]
    reads [undefined]. *)
Lemma arrayObject_named (cleaned : list obj) (c : ascii) (r : string) :
  isDigit c = false -> String c r <> "length" ->
  get (CompareCount.arrayObject cleaned) (String c r) = VUndefined.
Proof.
  intros Hc Hl. unfold get, CompareCount.arrayObject.
  rewrite lookup_insert_ne by congruence.
  rewrite (not_elem_of_list_to_map_1 _ (String c r)); [reflexivity|].
  intros H. apply list_elem_of_fmap in H as [[k v] [Hk H]].
  apply elem_of_lookup_imap in H as (i & x & Hx & _).
  simpl in Hk. injection Hx as -> _.
  destruct (showZ_index_digit i) as (c' & r' & E & Hd).
  rewrite E in Hk. injection Hk as -> _. congruence.
Qed.

Lemma lengthOf_throws (v : jsval) :
  CompareCount.lengthOf v = Throw <-> v = VUndefined \/ v = VNull.
Proof.
  destruct v; simpl; split; try discriminate; auto; intros [H|H]; discriminate.
Qed.

Lemma compareAll_throws (o : obj) (cs : list (string * string * Z)) :
  CompareCount.compareAll o cs = Throw
  <-> Exists (fun key => get o key = VUndefined \/ get o key = VNull)
             (snd <$> (fst <$> cs)).
Proof.
  induction cs as [|[[name key] expected] cs IH]; cbn [CompareCount.compareAll].
  - split; [discriminate | intros H; inversion H].
  - rewrite !fmap_cons, Exists_cons, <- IH, <- lengthOf_throws. simpl.
    destruct (CompareCount.lengthOf (get o key)).
    + destruct (CompareCount.compareAll o cs).
      * split; [discriminate | intros [H|H]; discriminate].
      * split; auto.
    + split; auto.
Qed.

(** C7: when the actual count differs from the expected exact count and the
    tolerance is zero, [validateCount] returns normally: it takes its
    out-of-range branch, logs the line that carries the difference and
    returns the issue text; for 490 barangays against 42011 the difference
    is -41521.  [compareCount] of the cleaning script, on every mismatch,
    returns the line with the same difference.  But [main] never enters it:
    the five calls raise exactly when a level's property of [cleaned] reads
    [undefined] or [null], [cleaned] is the array [cleanData] returned, its
    property [regions] reads [undefined], and so the comparison raises on
    every cleaned batch and logs no difference. *)
Theorem C7_count_mismatch_reported (name : string) (actual : Z) (std : standard) :
  min std = exact std -> max std = exact std -> actual <> exact std ->
  verdictOf actual std = OutOfRange (actual - exact std)
  /\ validateCount name actual std
     = ("  ❌ " +:+ name +:+ ": " +:+ showZ actual
          +:+ " (PSA official: " +:+ showZ (exact std)
          +:+ ", difference: " +:+ signed (actual - exact std)
          +:+ ", OUTSIDE expected range " +:+ showZ (min std)
          +:+ "-" +:+ showZ (max std) +:+ ")",
        Some (name +:+ " count (" +:+ showZ actual
              +:+ ") outside expected range (" +:+ showZ (min std)
              +:+ "-" +:+ showZ (max std)
              +:+ "), PSA official: " +:+ showZ (exact std)))
  /\ verdictOf 490 PSA_barangays = OutOfRange (-41521)
  /\ fst (validateCount "Barangays" 490 PSA_barangays)
     = "  ❌ Barangays: 490 (PSA official: 42011, difference: -41521, OUTSIDE expected range 42011-42011)"
  /\ CompareCount.compareCount name actual (exact std)
     = "  " +:+ (if (exact std <? actual)%Z then "⚠️" else "❌") +:+ " "
         +:+ name +:+ ": " +:+ showZ actual
         +:+ " (expected: " +:+ showZ (exact std)
         +:+ ", difference: " +:+ signed (actual - exact std) +:+ ")"
  /\ CompareCount.compareCount "Barangays" 490 42011
     = "  ❌ Barangays: 490 (expected: 42011, difference: -41521)"
  /\ (forall o : obj,
        CompareCount.compareAll o CompareCount.calls = Throw
        <-> Exists (fun key => get o key = VUndefined \/ get o key = VNull)
                   ["regions"; "provinces"; "cities"; "municipalities";
                    "barangays"])
  /\ (forall cleaned : list obj,
        get (CompareCount.arrayObject cleaned) "regions" = VUndefined
        /\ CompareCount.compareWithStandards cleaned = Throw).
Proof.
  intros Hmin Hmax Hne.
  split; [now apply verdictOf_zero_tolerance|].
  split.
  { unfold validateCount. rewrite Hmin, Hmax.
    destruct (Z.eqb_spec actual (exact std)); [contradiction|].
    destruct (Z.leb_spec (exact std) actual), (Z.leb_spec actual (exact std));
      simpl andb; cbv iota; try reflexivity. lia. }
  split; [reflexivity|]. split; [reflexivity|].
  split.
  { unfold CompareCount.compareCount.
    destruct (Z.eqb_spec (actual - exact std) 0); [lia|].
    destruct (Z.ltb_spec 0 (actual - exact std)),
             (Z.ltb_spec (exact std) actual); try reflexivity; lia. }
  split; [reflexivity|].
  split; [intros o; apply (compareAll_throws o CompareCount.calls)|].
  intros cleaned.
  assert (H : get (CompareCount.arrayObject cleaned) "regions" = VUndefined)
    by (apply arrayObject_named; [reflexivity | discriminate]).
  split; [exact H|].
  unfold CompareCount.compareWithStandards.
  apply compareAll_throws. apply Exists_cons_hd. left. exact H.
Qed.

Lemma C7_count_mismatch_reported_witness :
  verdictOf 490 PSA_barangays = OutOfRange (490 - exact PSA_barangays)
  /\ snd (validateCount "Barangays" 490 PSA_barangays)
     = Some "Barangays count (490) outside expected range (42011-42011), PSA official: 42011"
  /\ CompareCount.compareCount "Barangays" 490 (exact PSA_barangays)
     = "  ❌ Barangays: 490 (expected: 42011, difference: -41521)"
  /\ CompareCount.compareWithStandards [] = Throw.
Proof.
  destruct (C7_count_mismatch_reported "Barangays" 490 PSA_barangays
              eq_refl eq_refl ltac:(discriminate))
    as (H1 & H2 & _ & _ & H3 & _ & _ & H4).
  split; [exact H1|]. split; [rewrite H2; reflexivity|].
  split; [rewrite H3; reflexivity|]. exact (proj2 (H4 [])).
Defined.

End Standards.

(** ** The parent of a barangay *)

Section Parentage.

Import ImportPSGC ParentSpec.

Lemma references_present (parent : gmap string string) (k v : string) :
  parent !! k = Some v -> references parent (Some k) = true.
Proof. intros H. simpl. apply bool_decide_eq_true. eauto. Qed.

Lemma insertBarangay_unparented (d : db) (data : barangayData) :
  insertable d data = true -> unparented data ->
  exists d' row,
    insertBarangay d data = Ok d'
    /\ barangays d' !! code data = Some row
    /\ (city_code row, municipality_code row) = lookedUp d data
    /\ regions d' = regions d /\ provinces d' = provinces d
    /\ cities d' = cities d /\ municipalities d' = municipalities d.
Proof.
  unfold insertable, unparented, insertBarangay, resolveParent, lookedUp, prefixOf.
  intros Hins [Hc Hm]. rewrite Hc, Hm. cbn [notNull negb andb].
  repeat (apply andb_true_iff in Hins as [Hins ?]).
  unfold insertOrReplaceBarangay.
  destruct (cities d !! _) as [cv|] eqn:Ec;
    [|destruct (municipalities d !! _) as [mv|] eqn:Em];
    cbn [name city_code municipality_code province_code region_code];
    repeat match goal with H : _ = true |- _ => rewrite H end;
    rewrite ?(references_present _ _ _ Ec), ?(references_present _ _ _ Em);
    cbn [references andb];
    do 2 eexists; (split; [reflexivity|]);
    cbn [barangays]; rewrite lookup_insert_eq; repeat split.
Qed.

(** C5, counterexample: with the prefix 042111000 in neither table the
    barangay is inserted, and no municipality 042111000 exists afterwards. *)
Lemma C5_no_placeholder_counterexample :
  unparented orphanBarangay
  /\ cities caviteOnly !! prefixOf orphanBarangay = None
  /\ municipalities caviteOnly !! prefixOf orphanBarangay = None
  /\ (exists d', insertBarangay caviteOnly orphanBarangay = Ok d')
  /\ ~ SynthesizesMunicipality caviteOnly orphanBarangay.
Proof.
  assert (Hu : unparented orphanBarangay) by (split; reflexivity).
  destruct (insertBarangay_unparented caviteOnly orphanBarangay eq_refl Hu)
    as (d' & row & Hd & _ & _ & _ & _ & _ & Hm).
  repeat split; try reflexivity; [now exists d'|].
  intros H. destruct (H d' Hd) as [[v Hv] _].
  rewrite Hm in Hv. discriminate Hv.
Qed.

(** C5, amended: for a barangay with neither city_code nor
    municipality_code set, [insertBarangay] takes the first six digits of
    the code followed by "000", looks that code up in the cities first and in
    the municipalities second, and links the barangay to the first table
    that has it; when neither has it the barangay is inserted with both
    links null, and no parent row is created in any case. *)
Theorem C5_parent_lookup (d : db) (data : barangayData) :
  insertable d data = true ->
  unparented data ->
  exists d' row,
    insertBarangay d data = Ok d'
    /\ barangays d' !! code data = Some row
    /\ (city_code row, municipality_code row)
       = match cities d !! (substring 0 6 (code data) +:+ "000"),
               municipalities d !! (substring 0 6 (code data) +:+ "000") with
         | Some _, _ => (Some (substring 0 6 (code data) +:+ "000"), None)
         | None, Some _ => (None, Some (substring 0 6 (code data) +:+ "000"))
         | None, None => (None, None)
         end
    /\ cities d' = cities d
    /\ municipalities d' = municipalities d.
Proof.
  intros Hi Hu.
  destruct (insertBarangay_unparented d data Hi Hu)
    as (d' & row & Hd & Hrow & Hl & _ & _ & Hc & Hm).
  exists d', row. repeat split; assumption.
Qed.

Lemma C5_parent_lookup_witness :
  exists d' row,
    insertBarangay caviteWithKawit orphanBarangay = Ok d'
    /\ barangays d' !! "042111001" = Some row
    /\ (city_code row, municipality_code row) = (None, Some "042111000")
    /\ cities d' = ∅
    /\ municipalities d' = municipalities caviteWithKawit.
Proof.
  exact (C5_parent_lookup caviteWithKawit orphanBarangay eq_refl
           (conj eq_refl eq_refl)).
Defined.



End Parentage.

(** ** Merging a supplement into the baseline *)

Section Merge.

Import FixMissingRecords MergeSpec.

Lemma codesOf_cons (x : obj) (l : list obj) :
  codesOf (x :: l)
  = match codeOf x with Some c => {[c]} ∪ codesOf l | None => codesOf l end.
Proof. unfold codesOf. simpl. now destruct (codeOf x). Qed.

Lemma indexByCode_dom (l : list obj) (m : gmap string obj) :
  dom (foldl indexByCode m l) = dom m ∪ codesOf l.
Proof.
  revert m; induction l as [|x l IH]; intros m; simpl foldl.
  - unfold codesOf. simpl. now rewrite union_empty_r_L.
  - rewrite IH, codesOf_cons. unfold indexByCode. fold (codeOf x).
    destruct (codeOf x) as [c|]; [|reflexivity].
    rewrite dom_insert_L. clear IH. set_solver.
Qed.

Lemma collectMissing_spec (cm : gmap string obj) (source : list obj)
    (sm : gmap string obj) (acc : list obj) :
  snd (foldl (collectMissing cm) (sm, acc) source)
  = acc ++ missingOf (dom cm ∪ dom sm) source.
Proof.
  revert sm acc; induction source as [|x r IH]; intros sm acc; simpl foldl.
  - simpl. now rewrite app_nil_r.
  - cbn [missingOf]. fold (codeOf x).
    destruct (codeOf x) as [c|]; [|apply IH].
    destruct (cm !! c) as [v|] eqn:Ecm.
    { rewrite decide_True by (apply elem_of_union_l, elem_of_dom; eauto).
      apply IH. }
    destruct (sm !! c) as [v|] eqn:Esm.
    { rewrite decide_True by (apply elem_of_union_r, elem_of_dom; eauto).
      apply IH. }
    rewrite decide_False
      by (rewrite elem_of_union, !elem_of_dom, Ecm, Esm;
          intros [[? [=]]|[? [=]]]).
    rewrite IH, dom_insert_L, <- app_assoc. simpl.
    do 2 f_equal. f_equal. set_solver.
Qed.

Lemma missingOf_fresh (source : list obj) (known : gset string) :
  fresh known (missingOf known source).
Proof.
  revert known; induction source as [|x r IH]; intros known; simpl; [exact I|].
  destruct (codeOf x) as [c|] eqn:E; [|apply IH].
  destruct (decide (c ∈ known)); [apply IH|].
  simpl. exists c. auto.
Qed.

Lemma addMissing_fresh (l fixed : list obj) (m : gmap string obj) :
  fresh (dom m) l -> fst (foldl addMissing (fixed, m) l) = fixed ++ l.
Proof.
  revert fixed m; induction l as [|x r IH]; intros fixed m; simpl foldl.
  - intros _. simpl. now rewrite app_nil_r.
  - intros (c & Hc & Hnew & Hr). fold (codeOf x).
    rewrite Hc. apply not_elem_of_dom in Hnew. rewrite Hnew.
    rewrite IH by now rewrite dom_insert_L.
    now rewrite <- app_assoc.
Qed.

(** The merge keeps the baseline as it is and appends the missing records. *)
Lemma mergeRecords_spec (complete source : list obj) :
  mergeRecords complete source
  = complete ++ missingOf (codesOf complete) source.
Proof.
  unfold mergeRecords.
  rewrite collectMissing_spec, indexByCode_dom, dom_empty_L. simpl app.
  assert (E : (∅ ∪ codesOf complete) ∪ ∅ = codesOf complete) by set_solver.
  rewrite E. apply addMissing_fresh.
  rewrite indexByCode_dom, dom_empty_L.
  assert (E' : ∅ ∪ codesOf complete = codesOf complete) by set_solver.
  rewrite E'. apply missingOf_fresh.
Qed.

Lemma fixMissingRecords_spec (complete source : list obj) :
  classifiesAll complete = true -> classifiesAll source = true ->
  fixMissingRecords complete source
  = Ok (complete ++ missingOf (codesOf complete) source).
Proof.
  intros Hc Hs. unfold fixMissingRecords.
  now rewrite Hc, Hs, mergeRecords_spec.
Qed.

Lemma missingOf_sound (source : list obj) (known : gset string) (x : obj) :
  In x (missingOf known source) ->
  In x source /\ exists c, codeOf x = Some c /\ c ∉ known.
Proof.
  revert known; induction source as [|y r IH]; intros known; simpl; [tauto|].
  destruct (codeOf y) as [c|] eqn:E.
  - destruct (decide (c ∈ known)).
    + intros H. destruct (IH _ H). auto.
    + intros [<-|H]; [eauto|].
      destruct (IH _ H) as (? & c' & ? & ?). split; [auto|].
      exists c'. split; [assumption | set_solver].
  - intros H. destruct (IH _ H). auto.
Qed.

Lemma missingOf_complete (source : list obj) (known : gset string)
    (y : obj) (c : string) :
  In y source -> codeOf y = Some c -> c ∉ known ->
  exists y', In y' (missingOf known source) /\ codeOf y' = Some c.
Proof.
  revert known; induction source as [|x r IH]; intros known; simpl; [tauto|].
  intros Hin Hc Hnew.
  destruct (codeOf x) as [c'|] eqn:E.
  - destruct (decide (c' ∈ known)) as [Hk|Hk].
    + destruct Hin as [->|Hin]; [congruence | now apply IH].
    + destruct (decide (c' = c)) as [->|Hne]; [exists x; simpl; auto|].
      destruct Hin as [->|Hin]; [congruence|].
      destruct (IH ({[c']} ∪ known) Hin Hc) as (y' & ? & ?); [set_solver|].
      exists y'. simpl. auto.
  - destruct Hin as [->|Hin]; [congruence | now apply IH].
Qed.

Lemma missingOf_entitySet (source : list obj) (known : gset string) :
  entitySet source -> codesOf source ## known -> missingOf known source = source.
Proof.
  revert known; induction source as [|x r IH]; intros known [Hall Hnd] Hdis;
    [reflexivity|].
  apply Forall_cons in Hall as [[c Hc] Hall].
  rewrite codesOf_cons, Hc in Hdis. simpl in Hnd. rewrite Hc in Hnd.
  apply NoDup_cons in Hnd as [Hnew Hnd].
  simpl. rewrite Hc, decide_False by set_solver. f_equal.
  apply IH; [now split|].
  unfold codesOf in *. set_solver.
Qed.

(** C6: the merge of [fixMissingRecords] is baseline-preferring: the result
    is the baseline, unchanged, followed by added records; every added record
    is a record of the supplement whose code the baseline does not have, and
    every code that only the supplement has is added; merging the baseline A
    with the supplement A, B yields baseline A and supplement B.  On entity
    sets with disjoint codes the merge is commutative up to order. *)
Theorem C6_merge_baseline_preferring (complete source : list obj) :
  classifiesAll complete = true ->
  classifiesAll source = true ->
  (exists added,
      fixMissingRecords complete source = Ok (complete ++ added)
      /\ (forall x, In x added ->
            In x source /\ exists c, codeOf x = Some c /\ c ∉ codesOf complete)
      /\ (forall y c, In y source -> codeOf y = Some c -> c ∉ codesOf complete ->
            exists y', In y' added /\ codeOf y' = Some c))
  /\ (entitySet complete -> entitySet source ->
      codesOf complete ## codesOf source ->
      fixMissingRecords complete source = Ok (complete ++ source)
      /\ fixMissingRecords source complete = Ok (source ++ complete)
      /\ complete ++ source ≡ₚ source ++ complete)
  /\ fixMissingRecords [baselineA] [supplementA; supplementB]
     = Ok [baselineA; supplementB].
Proof.
  intros Hcl Hsl. split; [|split].
  - exists (missingOf (codesOf complete) source).
    split; [now apply fixMissingRecords_spec|]. split.
    + intros x. apply missingOf_sound.
    + intros y c. apply missingOf_complete.
  - intros Hc Hs Hdis. rewrite !fixMissingRecords_spec by assumption.
    rewrite (missingOf_entitySet source) by (assumption || set_solver).
    rewrite (missingOf_entitySet complete) by (assumption || set_solver).
    repeat split. apply Permutation_app_comm.
  - reflexivity.
Qed.

Lemma C6_merge_baseline_preferring_witness :
  fixMissingRecords [baselineA] [supplementB] = Ok [baselineA; supplementB]
  /\ fixMissingRecords [supplementB] [baselineA] = Ok [supplementB; baselineA]
  /\ [baselineA; supplementB] ≡ₚ [supplementB; baselineA].
Proof.
  apply (C6_merge_baseline_preferring [baselineA] [supplementB] eq_refl eq_refl).
  - split; [repeat constructor; eexists; reflexivity|].
    refine (bool_decide_unpack _ _). vm_compute. exact I.
  - split; [repeat constructor; eexists; reflexivity|].
    refine (bool_decide_unpack _ _). vm_compute. exact I.
  - refine (bool_decide_unpack _ _). vm_compute. exact I.
Defined.

End Merge.

(** ** Further properties of the code grammar *)

Section GrammarMore.

Import ImportExtract.

Lemma length_substringFrom (n : nat) (s : string) :
  String.length (substringFrom n s) = String.length s - n.
Proof.
  revert s; induction n as [|n IH]; intros s.
  - rewrite substringFrom_0. lia.
  - destruct s as [|c s]; [reflexivity | apply IH].
Qed.

Lemma nineDigits_inv (c : string) :
  nineDigits c = true -> String.length c = 9 /\ allDigits c = true.
Proof.
  unfold nineDigits. intros [H1 H2]%andb_true_iff.
  now apply Nat.eqb_eq in H1.
Qed.

Lemma prefix_append (n : nat) (a t : string) :
  n <= String.length a ->
  String.substring 0 n (a +:+ t) = String.substring 0 n a.
Proof.
  revert a; induction n as [|n IH]; intros [|c a] H; simpl in *; try lia;
    try reflexivity.
  - now destruct t.
  - f_equal. apply IH. lia.
Qed.

Lemma prefix_prefix (m n : nat) (s : string) :
  m <= n ->
  String.substring 0 m (String.substring 0 n s) = String.substring 0 m s.
Proof.
  revert n s; induction m as [|m IH]; intros [|n] [|c s] H; simpl; try lia;
    try reflexivity.
  f_equal. apply IH. lia.
Qed.

Lemma substringFrom_append (a t : string) :
  substringFrom (String.length a) (a +:+ t) = t.
Proof. induction a as [|c a IH]; [apply substringFrom_0 | exact IH]. Qed.

Lemma split_at (n : nat) (s : string) :
  s = String.substring 0 n s +:+ substringFrom n s.
Proof.
  revert s; induction n as [|n IH]; intros [|c s]; try reflexivity.
  change (String c s = String c (String.substring 0 n s +:+ substringFrom n s)).
  f_equal. apply IH.
Qed.

Lemma append_inj_r (a x y : string) : a +:+ x = a +:+ y -> x = y.
Proof. induction a as [|c a IH]; simpl; [auto | intros [= H]; auto]. Qed.

(** A prefix of a nine-digit code, filled with zeros, is nine digits again. *)
Lemma ancestor_nineDigits (n : nat) (c : string) :
  nineDigits c = true -> n <= 9 ->
  nineDigits (String.substring 0 n c +:+ replicate (9 - n) "0") = true
  /\ substringFrom n (String.substring 0 n c +:+ replicate (9 - n) "0")
     = replicate (9 - n) "0".
Proof.
  intros [Hlen Hdig]%nineDigits_inv Hn.
  assert (Hp : String.length (String.substring 0 n c) = n)
    by (rewrite length_prefix; lia).
  split.
  - unfold nineDigits. rewrite length_append, Hp, length_replicate.
    rewrite allDigits_append, allDigits_prefix, allDigits_zeros by assumption.
    replace (n + (9 - n)) with 9 by lia. reflexivity.
  - rewrite <- Hp at 1. apply substringFrom_append.
Qed.

Lemma patterns_of_nineDigits (c : string) :
  nineDigits c = true ->
  matchAll reRegion c = String.eqb (substringFrom 2 c) "0000000"
  /\ matchAll reProvince c = String.eqb (substringFrom 4 c) "00000"
  /\ matchAll reDistrict c = String.eqb (substringFrom 5 c) "0000"
  /\ matchAll reCityMuni c = String.eqb (substringFrom 6 c) "000"
  /\ matchAll reNineDigits c = true
  /\ matchEnd reTripleZero c = String.eqb (substringFrom 6 c) "000".
Proof.
  intros [Hlen Hdig]%nineDigits_inv.
  unfold reRegion, reProvince, reDistrict, reCityMuni.
  rewrite !matchAll_digitsThenZeros by (assumption || lia).
  repeat split.
  - unfold reNineDigits. rewrite <- Hlen. now apply matchAll_digits.
  - rewrite matchEnd_suffix by (simpl; lia). rewrite Hlen.
    apply (matchAll_zeros 3).
Qed.

(** X1: the normalisers of the two download scripts return exactly nine code
    units for every value they accept, and normalising their result again
    changes nothing. *)
Theorem download_normalize_nine_idempotent (x : jsval) :
  String.length (CloudCode.normalizeCode x) = 9
  /\ CloudCode.normalizeCode (VStr (CloudCode.normalizeCode x))
     = CloudCode.normalizeCode x
  /\ (forall s, PsaCode.normalizeCode x = Some s ->
        String.length s = 9 /\ PsaCode.normalizeCode (VStr s) = Some s).
Proof.
  assert (Hlen : forall t,
    String.length
      (if (String.length t =? 10)%nat && startsWith "0" t
       then substringFrom 1 t else substring 0 9 (padStart 9 "0" t)) = 9).
  { intros t. destruct (Nat.eqb_spec (String.length t) 10) as [E|E]; cbn [andb].
    - destruct (startsWith "0" t); [|apply length_pad_cut].
      rewrite length_substringFrom, E. reflexivity.
    - apply length_pad_cut. }
  assert (Hfix : forall s, String.length s = 9 ->
    (if (String.length s =? 10)%nat && startsWith "0" s
     then substringFrom 1 s else substring 0 9 (padStart 9 "0" s)) = s).
  { intros s Hs. rewrite Hs. cbn [Nat.eqb andb]. now apply pad_cut_nine. }
  split; [apply Hlen|]. split.
  - unfold CloudCode.normalizeCode at 1. simpl toStr. apply Hfix, Hlen.
  - unfold PsaCode.normalizeCode. destruct (negb (truthy x)); [discriminate|].
    intros s Hs. pose proof (Hlen (toStr x)) as H9.
    assert (Hs9 : String.length s = 9).
    { destruct ((String.length (toStr x) =? 10)%nat && startsWith "0" (toStr x));
        injection Hs as <-; exact H9. }
    split; [exact Hs9|]. cbn [truthy toStr].
    rewrite eqb_empty_length, Hs9. cbn [Nat.eqb negb andb].
    now rewrite pad_cut_nine.
Qed.

Lemma cloud_normalize_fixed (c : string) :
  String.length c = 9 -> CloudCode.normalizeCode (VStr c) = c.
Proof.
  intros H. unfold CloudCode.normalizeCode. cbn [toStr]. rewrite H.
  cbn [Nat.eqb andb]. now apply pad_cut_nine.
Qed.

Lemma fix_normalize_fixed (c : string) :
  String.length c = 9 -> FixCode.normalizeCode (VStr c) = Some c.
Proof.
  intros H. unfold FixCode.normalizeCode. cbn [truthy toStr].
  rewrite eqb_empty_length, H. cbn [Nat.eqb negb]. now rewrite pad_cut_nine.
Qed.

(** X2: a canonical code (nine digits) passes every normaliser of the
    scripts unchanged. *)
Theorem canonical_code_fixed (c : string) :
  nineDigits c = true ->
  CleanCode.normalizeCode (VStr c) = Some c
  /\ ImportCode.normalizeCode (VStr c) = Some c
  /\ FixCode.normalizeCode (VStr c) = Some c
  /\ PsaCode.normalizeCode (VStr c) = Some c
  /\ CloudCode.normalizeCode (VStr c) = c.
Proof.
  intros [Hlen Hdig]%nineDigits_inv. repeat split.
  - now apply clean_normalize_fixed.
  - now apply import_normalize_fixed.
  - now apply fix_normalize_fixed.
  - unfold PsaCode.normalizeCode. cbn [truthy toStr].
    rewrite eqb_empty_length, Hlen. cbn [Nat.eqb negb andb].
    now rewrite pad_cut_nine.
  - now apply cloud_normalize_fixed.
Qed.

Lemma canonical_code_fixed_witness :
  CleanCode.normalizeCode (VStr "042111001") = Some "042111001"
  /\ ImportCode.normalizeCode (VStr "042111001") = Some "042111001"
  /\ FixCode.normalizeCode (VStr "042111001") = Some "042111001"
  /\ PsaCode.normalizeCode (VStr "042111001") = Some "042111001"
  /\ CloudCode.normalizeCode (VStr "042111001") = "042111001".
Proof. apply (canonical_code_fixed "042111001"). reflexivity. Defined.

Lemma ancestor_facts (n : nat) (c : string) :
  nineDigits c = true -> n <= 9 ->
  let a := substring 0 n c +:+ replicate (9 - n) "0" in
  nineDigits a = true
  /\ matchAll (digitsThenZeros n (9 - n)) a = true
  /\ forall m, m <= n -> substring 0 m a = substring 0 m c.
Proof.
  intros Hc Hn. cbv zeta. unfold substring. rewrite Nat.sub_0_r.
  destruct (ancestor_nineDigits n c Hc Hn) as [Ha Hsuf].
  set (a := String.substring 0 n c +:+ replicate (9 - n) "0") in *.
  split; [exact Ha|]. destruct (nineDigits_inv _ Ha) as [Hlen Hdig].
  destruct (nineDigits_inv _ Hc) as [Hclen _]. split.
  - rewrite matchAll_digitsThenZeros by (assumption || lia).
    rewrite Hsuf. apply String.eqb_refl.
  - intros m Hm. rewrite Nat.sub_0_r. unfold a.
    rewrite prefix_append by (rewrite length_prefix; lia).
    now apply prefix_prefix.
Qed.

(** X3: the ancestor codes are positional and compose: of a nine-digit code
    the region code (2 digits and 7 zeros), the province code (4 and 5) and
    the city/municipality code (6 and 3, as [insertBarangay] forms it) each
    have the pattern of their level, and the province of the
    city/municipality code and the region of the province code are those of
    the code itself. *)
Theorem ancestors_compose (c : string) :
  nineDigits c = true ->
  extractRegionCode (VStr c) = Some (regionOf c)
  /\ extractProvinceCode (VStr c) = Some (provinceOf c)
  /\ matchAll reRegion (regionOf c) = true
  /\ matchAll reProvince (provinceOf c) = true
  /\ matchAll reCityMuni (cityMuniOf c) = true
  /\ extractProvinceCode (VStr (cityMuniOf c)) = Some (provinceOf c)
  /\ extractRegionCode (VStr (provinceOf c)) = Some (regionOf c)
  /\ extractRegionCode (VStr (regionOf c)) = Some (regionOf c).
Proof.
  intros Hc. destruct (nineDigits_inv _ Hc) as [Hlen Hdig].
  destruct (ancestor_facts 2 c Hc ltac:(lia)) as (Hr9 & Hrm & Hrp).
  destruct (ancestor_facts 4 c Hc ltac:(lia)) as (Hp9 & Hpm & Hpp).
  destruct (ancestor_facts 6 c Hc ltac:(lia)) as (Hm9 & Hmm & Hmp).
  cbn [Nat.sub replicate] in *. cbv zeta in *.
  fold (regionOf c) in *. fold (provinceOf c) in *. fold (cityMuniOf c) in *.
  destruct (nineDigits_inv _ Hr9), (nineDigits_inv _ Hp9), (nineDigits_inv _ Hm9).
  unfold extractRegionCode, extractProvinceCode.
  rewrite !import_normalize_fixed by assumption.
  repeat split; try assumption.
  - rewrite (Hmp 4) by lia. reflexivity.
  - rewrite (Hpp 2) by lia. reflexivity.
  - rewrite (Hrp 2) by lia. reflexivity.
Qed.

Lemma ancestors_compose_witness :
  extractRegionCode (VStr "042111001") = Some "040000000"
  /\ extractProvinceCode (VStr "042111001") = Some "042100000"
  /\ matchAll reRegion "040000000" = true
  /\ matchAll reProvince "042100000" = true
  /\ matchAll reCityMuni "042111000" = true
  /\ extractProvinceCode (VStr "042111000") = Some "042100000"
  /\ extractRegionCode (VStr "042100000") = Some "040000000"
  /\ extractRegionCode (VStr "040000000") = Some "040000000".
Proof. apply (ancestors_compose "042111001"). reflexivity. Defined.

Lemma province_tail (c : string) :
  String.eqb c (substring 0 4 c +:+ "00000")
  = String.eqb (substringFrom 4 c) "00000".
Proof.
  unfold substring. rewrite Nat.sub_0_r.
  destruct (String.eqb_spec (substringFrom 4 c) "00000") as [E|E].
  - apply String.eqb_eq. rewrite (split_at 4 c) at 1. now rewrite E.
  - apply String.eqb_neq. intros H. apply E.
    rewrite (split_at 4 c) in H at 1. now apply append_inj_r in H.
Qed.

Lemma region_tail_province (c : string) :
  substringFrom 2 c = "0000000" -> substringFrom 4 c = "00000".
Proof. intros H. change 4 with (2 + 2). now rewrite substringFrom_add, H. Qed.

(** X4: [extractDistrictCode] returns a nine-digit code exactly when the
    code has the district shape (a suffix of four zeros and no more), the
    shape the classifiers file under district, and null otherwise. *)
Theorem extractDistrictCode_spec (c : string) :
  nineDigits c = true ->
  extractDistrictCode (VStr c)
  = match codeShape c with District => Some c | _ => None end.
Proof.
  intros Hc. destruct (nineDigits_inv _ Hc) as [Hlen Hdig].
  destruct (patterns_of_nineDigits c Hc) as (_ & _ & Hd & _).
  unfold extractDistrictCode. rewrite import_normalize_fixed by assumption.
  rewrite Hd, province_tail. unfold codeShape.
  destruct (String.eqb_spec (substringFrom 4 c) "00000") as [E4|E4].
  - destruct (String.eqb (substringFrom 2 c) "0000000");
      now destruct (String.eqb (substringFrom 5 c) "0000").
  - destruct (String.eqb_spec (substringFrom 2 c) "0000000") as [E2|E2];
      [now apply region_tail_province in E2|].
    destruct (String.eqb (substringFrom 5 c) "0000"); [reflexivity|].
    cbn [negb]. now destruct (String.eqb (substringFrom 6 c) "000").
Qed.

Lemma extractDistrictCode_spec_witness :
  extractDistrictCode (VStr "133910000") = Some "133910000".
Proof. apply (extractDistrictCode_spec "133910000"). reflexivity. Defined.

End GrammarMore.

(** ** Further properties of the classifiers *)

Section ClassifiersMore.

Import ImportExtract.

Lemma nineDigits_valid (c : string) :
  nineDigits c = true -> String.eqb c "000000000" = false -> validCode c = true.
Proof. unfold nineDigits, validCode. now intros -> ->. Qed.

(** After normalisation the classifier only looks at the nine digits. *)
Lemma clean_classify_normalized (x name type : jsval) (row : obj) (c : string) :
  CleanCode.normalizeCode x = Some c ->
  CleanPSGCData.classifyEntity x name type row
  = CleanPSGCData.classifyEntity (VStr c) name type row.
Proof.
  intros H. destruct (clean_normalize_shape _ _ H) as [Hlen Hdig].
  unfold CleanPSGCData.classifyEntity.
  now rewrite H, (clean_normalize_fixed c Hlen Hdig).
Qed.

Lemma clean_classify_nine (c name type : string) (row : obj) :
  nineDigits c = true ->
  if String.eqb c "000000000"
  then CleanPSGCData.classifyEntity (VStr c) (VStr name) (VStr type) row = Ok None
  else exists e,
      CleanPSGCData.classifyEntity (VStr c) (VStr name) (VStr type) row = Ok (Some e)
      /\ CleanPSGCData.code e = c
      /\ shapeOfLevel (CleanPSGCData.type e) = codeShape c.
Proof.
  intros Hc. destruct (nineDigits_inv _ Hc) as [Hlen Hdig].
  destruct (patterns_of_nineDigits c Hc) as (Hr & Hp & Hd & Hm & Hn & Hz).
  unfold CleanPSGCData.classifyEntity.
  rewrite (clean_normalize_fixed c Hlen Hdig).
  destruct (String.eqb c "000000000"); [reflexivity|].
  destruct (callTrim_text name) as [n ->], (callTrim_text type) as [t ->].
  rewrite Hr, Hp, Hd, Hm, Hn, Hz. unfold codeShape.
  destruct (String.eqb (substringFrom 2 c) "0000000"); [eexists; repeat split|].
  destruct (String.eqb (substringFrom 4 c) "00000"); [eexists; repeat split|].
  destruct (String.eqb (substringFrom 5 c) "0000"); [eexists; repeat split|].
  destruct (String.eqb (substringFrom 6 c) "000"); simpl.
  - match goal with |- context [if ?b then _ else _] => destruct b end;
      eexists; repeat split.
  - eexists; repeat split.
Qed.

(** X5: with a text name and type, [classifyEntity] of the cleaning script
    never raises, and it returns null exactly when the code normalises to
    null or to the all-zero code: every other value of the code is
    classified. *)
Theorem classifyEntity_null_iff (x : jsval) (name type : string) (row : obj) :
  CleanPSGCData.classifyEntity x (VStr name) (VStr type) row <> Throw
  /\ (CleanPSGCData.classifyEntity x (VStr name) (VStr type) row = Ok None
      <-> CleanCode.normalizeCode x = None
          \/ CleanCode.normalizeCode x = Some "000000000").
Proof.
  destruct (CleanCode.normalizeCode x) as [c|] eqn:E.
  - rewrite (clean_classify_normalized _ _ _ _ _ E).
    destruct (clean_normalize_shape _ _ E) as [Hlen Hdig].
    assert (Hc : nineDigits c = true)
      by (unfold nineDigits; now rewrite Hlen, Hdig).
    pose proof (clean_classify_nine c name type row Hc) as H.
    destruct (String.eqb_spec c "000000000") as [->|Hne].
    + rewrite H. split; [discriminate | split; auto].
    + destruct H as (e & -> & _). split; [discriminate|].
      split; [discriminate | intros [[=]|[= ->]]; contradiction].
  - unfold CleanPSGCData.classifyEntity. rewrite E.
    split; [discriminate | split; auto].
Qed.

Lemma codeShape4_cases (c : string) :
  codeShape4 c
  = if String.eqb (substringFrom 2 c) "0000000" then Region
    else if String.eqb (substringFrom 4 c) "00000" then Province
    else if String.eqb (substringFrom 6 c) "000" then CityMunicipality
    else Barangay.
Proof.
  unfold codeShape4, codeShape.
  destruct (String.eqb (substringFrom 2 c) "0000000"); [reflexivity|].
  destruct (String.eqb (substringFrom 4 c) "00000"); [reflexivity|].
  destruct (String.eqb_spec (substringFrom 5 c) "0000") as [E|E].
  - change 6 with (5 + 1). now rewrite substringFrom_add, E.
  - now destruct (String.eqb (substringFrom 6 c) "000").
Qed.

(** X6: [classifyEntity] of fixMissingRecords.js knows four shapes: for a
    record with a nine-digit code (the all-zero code included) and a name and
    type that are text or absent it returns a level, never null, and the
    level has the shape fixed by the zero suffix of the code, a code with a
    four-zero suffix counting as city or municipality. *)
Theorem fix_classify_four_shapes (item : obj) (c n t : string) :
  FixCode.normalizeCode (get item "code") = Some c ->
  nineDigits c = true ->
  FixMissingRecords.lowerOf (get item "name") = Some n ->
  FixMissingRecords.lowerOf (get item "type") = Some t ->
  exists k,
    FixMissingRecords.classifyEntity item = Ok (Some k)
    /\ shapeOfKind k = codeShape4 c.
Proof.
  intros Hcode Hc Hn Ht.
  destruct (patterns_of_nineDigits c Hc) as (Hr & Hp & _ & Hm & H9 & Hz).
  unfold FixMissingRecords.classifyEntity.
  rewrite Hcode, Hr, Hp, Hm, H9, Hz, Hn, Ht, codeShape4_cases.
  destruct (String.eqb (substringFrom 2 c) "0000000"); [eexists; split; reflexivity|].
  destruct (String.eqb (substringFrom 4 c) "00000"); [eexists; split; reflexivity|].
  destruct (String.eqb (substringFrom 6 c) "000"); cbn [negb andb].
  - eexists. split; [reflexivity|].
    now match goal with |- context [if ?b then _ else _] => destruct b end.
  - eexists; split; reflexivity.
Qed.

Lemma fix_classify_four_shapes_witness :
  exists k,
    FixMissingRecords.classifyEntity firstDistrict = Ok (Some k)
    /\ shapeOfKind k = CityMunicipality.
Proof.
  exact (fix_classify_four_shapes firstDistrict
           "133910000" "first district" "" eq_refl eq_refl eq_refl eq_refl).
Defined.

(** X7: the separation by level of [importData] never leaves out a record
    with a valid code and a text name: it is pushed to one list; a type
    "Region" sends it to the regions whatever its code, and unless the type
    is "Region" or "Province" the list is the one of the code's shape, a
    district-shaped code going to the cities or municipalities. *)
Theorem import_separate_total (item : obj) (c n : string) :
  ImportCode.normalizeCode (ors [get item "code"; get item "Code"; get item "CODE"])
  = Some c ->
  validCode c = true ->
  callTrim (ors [get item "name"; get item "Name"; get item "NAME"; VStr ""])
  = Some n ->
  let type := ors [get item "type"; get item "Type"; get item "TYPE"] in
  exists l,
    separate item = Ok (Some l)
    /\ (type = VStr "Region" -> l = regionsList)
    /\ (type <> VStr "Region" -> type <> VStr "Province" ->
        shapeOfTarget l = codeShape4 c).
Proof.
  intros Hcode Hv Hn type.
  destruct (patterns_of_valid c Hv) as (Hr & Hp & _ & Hm & H9 & Hz).
  assert (Hnz : String.eqb c "000000000" = false).
  { unfold validCode in Hv. apply andb_true_iff in Hv as [_ Hv].
    now apply negb_true_iff in Hv. }
  unfold separate. rewrite Hcode, Hn, Hnz. fold type.
  unfold targetOf, strictEq. rewrite Hr, Hp, Hm, H9, Hz, codeShape4_cases.
  destruct (decide (type = VStr "Region")) as [ER|ER].
  { rewrite bool_decide_eq_true_2 by assumption. cbn [orb].
    exists regionsList. repeat split. contradiction. }
  rewrite (bool_decide_eq_false_2 _ ER). cbn [orb].
  destruct (decide (type = VStr "Province")) as [EP|EP].
  { rewrite bool_decide_eq_true_2 by assumption.
    destruct (String.eqb (substringFrom 2 c) "0000000");
      eexists; repeat split; try reflexivity; contradiction. }
  rewrite (bool_decide_eq_false_2 _ EP). cbn [orb].
  destruct (String.eqb (substringFrom 2 c) "0000000");
    [eexists; repeat split; try reflexivity; contradiction|].
  destruct (String.eqb (substringFrom 4 c) "00000");
    [eexists; repeat split; try reflexivity; contradiction|].
  destruct (String.eqb (substringFrom 6 c) "000"); cbn [negb andb].
  - match goal with |- context [if ?b then _ else _] => destruct b end;
      eexists; repeat split; try reflexivity; contradiction.
  - rewrite orb_true_r. eexists; repeat split; try reflexivity; contradiction.
Qed.

Lemma import_separate_total_witness :
  exists l,
    separate firstDistrict = Ok (Some l)
    /\ (VUndefined = VStr "Region" -> l = regionsList)
    /\ (VUndefined <> VStr "Region" -> VUndefined <> VStr "Province" ->
        shapeOfTarget l = CityMunicipality).
Proof.
  exact (import_separate_total firstDistrict
           "133910000" "First District" eq_refl eq_refl eq_refl).
Defined.

Lemma startsWith_refl (p : string) : startsWith p p = true.
Proof. induction p as [|a p IH]; simpl; [reflexivity|]. now rewrite Ascii.eqb_refl. Qed.

Lemma startsWith_shorter (p q s : string) :
  startsWith (p +:+ q) s = true -> startsWith p s = true.
Proof.
  revert s; induction p as [|a p IH]; intros s; [reflexivity|].
  destruct s as [|b s]; simpl; [discriminate|].
  intros [-> H]%andb_true_iff. simpl. eauto.
Qed.

Lemma includes_shorter (p q s : string) :
  includes (p +:+ q) s = true -> includes p s = true.
Proof.
  induction s as [|b s IH]; cbn [includes].
  - rewrite !orb_false_r. apply startsWith_shorter.
  - intros [H|H]%orb_true_iff.
    + now rewrite (startsWith_shorter _ _ _ H).
    + rewrite (IH H). apply orb_true_r.
Qed.

Lemma includes_later (a : ascii) (p s : string) :
  includes (String a p) s = true -> includes p s = true.
Proof.
  induction s as [|b s IH]; cbn [includes]; [discriminate|].
  intros [H|H]%orb_true_iff.
  - cbn [startsWith] in H. apply andb_true_iff in H as [_ H].
    assert (Hi : includes p s = true) by (destruct s; cbn [includes]; now rewrite H).
    rewrite Hi. apply orb_true_r.
  - rewrite (IH H). apply orb_true_r.
Qed.

Lemma endsWith_includes (p s : string) :
  endsWith p s = true -> includes p s = true.
Proof.
  induction s as [|b s IH]; cbn [endsWith includes].
  - rewrite !orb_false_r. intros ->%String.eqb_eq. reflexivity.
  - intros [->%String.eqb_eq|H]%orb_true_iff.
    + now rewrite startsWith_refl.
    + rewrite (IH H). apply orb_true_r.
Qed.

Lemma startsWith_append (p a b : string) :
  startsWith p a = true -> startsWith p (a +:+ b) = true.
Proof.
  revert a; induction p as [|x p IH]; intros a; [reflexivity|].
  destruct a as [|y a]; simpl; [discriminate|].
  intros [-> H]%andb_true_iff. simpl. eauto.
Qed.

Lemma includes_append (p a b : string) :
  includes p a = true -> includes p (a +:+ b) = true.
Proof.
  induction a as [|y a IH].
  - cbn [includes]. rewrite orb_false_r. destruct p; [|discriminate].
    intros _. now destruct b.
  - cbn [includes]. intros [H|H]%orb_true_iff.
    + apply (startsWith_append _ _ b) in H.
      change (String y a +:+ b) with (String y (a +:+ b)) in *. cbn [includes].
      now rewrite H.
    + change (String y a +:+ b) with (String y (a +:+ b)). cbn [includes].
      rewrite (IH H). apply orb_true_r.
Qed.

Lemma toLowerCase_append (a b : string) :
  toLowerCase (a +:+ b) = toLowerCase a +:+ toLowerCase b.
Proof. induction a as [|c a IH]; simpl; [reflexivity | now rewrite IH]. Qed.

Lemma trimEnd_prefix (s : string) : exists b, s = trimEnd s +:+ b.
Proof.
  induction s as [|c s [b IH]]; [now exists ""|].
  cbn [trimEnd]. destruct (trimEnd s) as [|c' r].
  - destruct (isWhiteSpace c); [now exists (String c s)|].
    exists b. simpl in *. now rewrite IH at 1.
  - exists b. simpl in *. now rewrite IH at 1.
Qed.

Lemma includes_lower_trimStart (p s : string) :
  includes p (toLowerCase (trimStart s)) = true ->
  includes p (toLowerCase s) = true.
Proof.
  induction s as [|c s IH]; [auto|].
  cbn [trimStart]. destruct (isWhiteSpace c); [|auto].
  intros H. cbn [toLowerCase includes]. rewrite (IH H). apply orb_true_r.
Qed.

(** What a trimmed, lower-cased text contains, the text contains. *)
Lemma includes_lower_trim (p s : string) :
  includes p (toLowerCase (trim s)) = true -> includes p (toLowerCase s) = true.
Proof.
  unfold trim. intros H. apply includes_lower_trimStart.
  destruct (trimEnd_prefix (trimStart s)) as [b Hb].
  rewrite Hb, toLowerCase_append. now apply includes_append.
Qed.

Lemma no_city_phrases (s : string) :
  includes "city" s = false ->
  includes "city of" s = false /\ endsWith " city" s = false
  /\ includes "component city" s = false.
Proof.
  intros H. repeat split.
  - destruct (includes "city of" s) eqn:E; [|reflexivity].
    apply (includes_shorter "city" " of") in E. congruence.
  - destruct (endsWith " city" s) eqn:E; [|reflexivity].
    apply endsWith_includes, includes_later in E. congruence.
  - destruct (includes "component city" s) eqn:E; [|reflexivity].
    do 10 apply includes_later in E. congruence.
Qed.

(** X8: absence of every city signal defaults to municipality in each
    classifier: a record with a code of the city/municipality shape
    (exactly three trailing zeros), no "city" in its name or type in any
    letter case, and no city-class property is a municipality for
    [classifyEntity] of the cleaning script, for the validator's if-chain and
    for [classifyEntity] of fixMissingRecords.js. *)
Theorem no_city_signal_is_municipality (item : obj) (c name type : string) :
  validCode c = true ->
  codeShape c = CityMunicipality ->
  noCitySignal item name type ->
  (exists e,
      CleanPSGCData.classifyEntity (VStr c) (VStr name) (VStr type) item = Ok (Some e)
      /\ CleanPSGCData.type e = CleanPSGCData.municipality)
  /\ ValidatePSGC.bucketOf c name (VStr type) = ValidatePSGC.municipalities
  /\ (get item "code" = VStr c -> get item "name" = VStr name ->
      get item "type" = VStr type ->
      FixMissingRecords.classifyEntity item
      = Ok (Some FixMissingRecords.municipality)).
Proof.
  intros Hv Hshape (Hname & Htype & Hfields).
  destruct (patterns_of_valid c Hv) as (Hr & Hp & Hd & Hm & H9 & Hz).
  pose proof Hv as Hv'. unfold validCode in Hv'.
  apply andb_true_iff in Hv' as [[Hlen Hdig]%andb_true_iff Hnz].
  apply Nat.eqb_eq in Hlen. apply negb_true_iff in Hnz.
  unfold codeShape in Hshape.
  destruct (String.eqb (substringFrom 2 c) "0000000") eqn:E2; [discriminate|].
  destruct (String.eqb (substringFrom 4 c) "00000") eqn:E4; [discriminate|].
  destruct (String.eqb (substringFrom 5 c) "0000") eqn:E5; [discriminate|].
  destruct (String.eqb (substringFrom 6 c) "000") eqn:E6; [|discriminate].
  repeat (apply Forall_cons in Hfields as [? Hfields]).
  destruct (no_city_phrases _ Hname) as (Hn1 & Hn2 & Hn3).
  assert (Hty : strictEq (VStr type) (VStr "City") = false).
  { apply bool_decide_eq_false_2. intros [= ->]. discriminate Htype. }
  split; [|split].
  - unfold CleanPSGCData.classifyEntity.
    rewrite (clean_normalize_fixed c Hlen Hdig), Hnz.
    assert (Hcall : forall s, includes "city" (toLowerCase s) = false ->
              exists s', callTrim (orElse (VStr s) (VStr "")) = Some s'
                         /\ includes "city" (toLowerCase s') = false).
    { intros s Hs. unfold orElse. destruct (truthy (VStr s)); cbn [callTrim].
      - eexists. split; [reflexivity|].
        destruct (includes "city" (toLowerCase (trim s))) eqn:E; [|reflexivity].
        apply includes_lower_trim in E. congruence.
      - eexists. split; reflexivity. }
    destruct (Hcall name Hname) as (n' & -> & Hn').
    destruct (Hcall type Htype) as (t' & -> & Ht').
    destruct (no_city_phrases _ Hn') as (Hn1' & Hn2' & _).
    rewrite Hr, Hp, Hd, Hm, Ht', Hn1', Hn2', Hn'.
    repeat match goal with H : truthy _ = false |- _ => rewrite H; clear H end.
    eexists. split; reflexivity.
  - unfold ValidatePSGC.bucketOf. rewrite Hr, Hp, Hd, Hm, Hty, Hn1, Hn2, Hname.
    reflexivity.
  - intros Gc Gn Gt. unfold FixMissingRecords.classifyEntity.
    rewrite Gc, (fix_normalize_fixed c Hlen), Hr, Hp, Hm, Gn, Gt, !lowerOf_text.
    rewrite Hn1, Hn2, Hname.
    assert (Hteq : String.eqb (toLowerCase type) "city" = false).
    { apply String.eqb_neq. intros E. rewrite E in Htype. discriminate Htype. }
    rewrite Hteq.
    repeat match goal with H : truthy _ = false |- _ => rewrite H; clear H end.
    now destruct (_ || _).
Qed.

Lemma no_city_signal_is_municipality_witness :
  ValidatePSGC.bucketOf "042111000" "Kawit" (VStr "Mun") = ValidatePSGC.municipalities
  /\ FixMissingRecords.classifyEntity kawit = Ok (Some FixMissingRecords.municipality).
Proof.
  assert (H : noCitySignal kawit "Kawit" "Mun").
  { repeat split. repeat constructor. }
  destruct (no_city_signal_is_municipality kawit "042111000" "Kawit" "Mun"
              eq_refl eq_refl H) as (_ & H2 & H3).
  split; [exact H2 | exact (H3 eq_refl eq_refl eq_refl)].
Defined.

End ClassifiersMore.

(** ** Invariants of the cleaning pass *)

Section CleaningMore.

Import CleanPSGCData CleaningSpec.

(** The four ways [cleanItem] treats a record. *)
Lemma cleanItem_cases (st : state) (i : nat) (item : obj) :
  (accepted item = None /\ exists e, cleanItem st i item = pushInvalid e st)
  \/ (exists c n, accepted item = Some (c, n) /\ c ∈ seen st
        /\ cleanItem st i item
           = pushDuplicate {| dup_index := i; dup_code := c; dup_name := n |} st)
  \/ (exists c n, accepted item = Some (c, n) /\ (c ∉ seen st)
        /\ c = "000000000"
        /\ cleanItem st i item = pushInvalid (InvalidPattern i c n) (addSeen c st))
  \/ (exists c n e, accepted item = Some (c, n) /\ (c ∉ seen st)
        /\ validCode c = true
        /\ code e = c /\ shapeOfLevel (type e) = codeShape c
        /\ cleanItem st i item
           = pushCleaned (type e) (buildEntity item c e) (addSeen c st)).
Proof.
  unfold accepted, cleanItem.
  destruct (callTrim (ors [get item "name"; _; _])) as [n|]; [|left; eauto].
  destruct (callTrim (ors [get item "type"; _; _; _])) as [t|]; [|left; eauto].
  destruct (CleanCode.normalizeCode _) as [c|] eqn:Ec; [|left; eauto].
  destruct (String.eqb n ""); [left; eauto|].
  destruct (decide (c ∈ seen st)) as [Hin|Hin]; [right; left; eauto 6|].
  destruct (clean_normalize_shape _ _ Ec) as [Hlen Hdig].
  assert (Hc : nineDigits c = true) by (unfold nineDigits; now rewrite Hlen, Hdig).
  pose proof (clean_classify_nine c n t item Hc) as H.
  destruct (String.eqb_spec c "000000000") as [E|E].
  - rewrite H. right; right; left. eauto 8.
  - destruct H as (e & -> & He1 & He2). right; right; right.
    exists c, n, e. repeat split; try assumption.
    apply nineDigits_valid; [assumption | now apply String.eqb_neq].
Qed.

Lemma allData_pushCleaned (t : level) (e : cleanEntity) (st : state) :
  allData (pushCleaned t e st)
  ≡ₚ if decide (t = district) then allData st else e :: allData st.
Proof.
  unfold allData, pushCleaned. destruct t; cbn [regions provinces districts cities
    municipalities barangays]; repeat case_decide; try congruence;
    try reflexivity; solve_Permutation.
Qed.

Lemma prop_code_buildEntity (item : obj) (c : string) (e : entity) :
  prop "code" (buildEntity item c e) = VStr (code e).
Proof. unfold buildEntity. now destruct (type e). Qed.

Lemma level_district (e : entity) :
  shapeOfLevel (type e) = District <-> type e = district.
Proof. destruct (type e); simpl; split; congruence. Qed.

Lemma cleanInv_seen (st : state) (c : string) (e : cleanEntity) :
  cleanInv st -> e ∈ allData st -> prop "code" e = VStr c -> c ∈ seen st.
Proof.
  intros [_ Hall] Hin Hc. rewrite Forall_forall in Hall.
  destruct (Hall e Hin) as (c' & Hc' & Hs & _). congruence.
Qed.

Lemma cleanInv_weaken (st st' : state) :
  allData st' = allData st -> seen st ⊆ seen st' -> cleanInv st -> cleanInv st'.
Proof.
  intros Ha Hs [Hnd Hall]. unfold cleanInv. rewrite Ha. split; [assumption|].
  eapply Forall_impl; [exact Hall|].
  intros e (c & ? & ? & ? & ?). exists c. repeat split; auto.
Qed.

Lemma cleanInv_step (st : state) (i : nat) (item : obj) :
  cleanInv st -> cleanInv (cleanItem st i item).
Proof.
  intros Hinv.
  destruct (cleanItem_cases st i item)
    as [(_ & e & ->) | [(c & n & _ & _ & ->) | [(c & n & _ & _ & _ & ->)
       | (c & n & e & _ & Hnew & Hv & Hcode & Hshape & ->)]]].
  - now apply (cleanInv_weaken st).
  - now apply (cleanInv_weaken st).
  - apply (cleanInv_weaken st); [reflexivity | simpl; set_solver | assumption].
  - assert (Hold : cleanInv (addSeen c st))
      by (apply (cleanInv_weaken st); [reflexivity | simpl; set_solver | assumption]).
    unfold cleanInv. rewrite allData_pushCleaned.
    case_decide as Hd; [exact Hold|].
    change (allData (addSeen c st)) with (allData st) in *.
    change (seen (pushCleaned (type e) (buildEntity item c e) (addSeen c st)))
      with ({[c]} ∪ seen st).
    destruct Hold as [Hnd Hall]. split.
    + rewrite fmap_cons. apply NoDup_cons. split; [|assumption].
      rewrite prop_code_buildEntity, Hcode.
      intros (e' & He' & Hin)%list_elem_of_fmap.
      apply Hnew. now apply (cleanInv_seen st c e').
    + apply Forall_cons. split; [|exact Hall].
      exists c. rewrite prop_code_buildEntity, Hcode.
      repeat split; [set_solver | assumption|].
      rewrite <- Hshape, level_district. exact Hd.
Qed.

Lemma cleanInv_run (data : list obj) (i : nat) (st : state) :
  cleanInv st -> cleanInv (cleanFrom i data st).
Proof.
  revert i st; induction data as [|x data IH]; intros i st H; simpl; [assumption|].
  apply IH. now apply cleanInv_step.
Qed.

(** X9: the output of [cleanData] has no duplicate codes: the "code"
    properties of its records are pairwise distinct, whatever the batch. *)
Theorem cleanData_codes_distinct (data : list obj) :
  NoDup (prop "code" <$> cleanData data).
Proof.
  apply (cleanInv_run data 0 init). split; [constructor | constructor].
Qed.

(** X10: every record in the output of [cleanData] carries a valid code
    (nine digits, not all zero) that has not the district shape: a record
    with a district code never reaches the output. *)
Theorem cleanData_codes_valid (data : list obj) (e : cleanEntity) :
  In e (cleanData data) ->
  exists c, prop "code" e = VStr c /\ validCode c = true /\ codeShape c <> District.
Proof.
  intros Hin. apply list_elem_of_In in Hin.
  destruct (cleanInv_run data 0 init) as [_ Hall]; [split; constructor|].
  rewrite Forall_forall in Hall.
  destruct (Hall e Hin) as (c & ? & _ & ? & ?). eauto.
Qed.

Lemma cleanData_codes_valid_witness :
  exists c, prop "code" (buildEntity manilaFirst "137401000"
              {| type := city; code := "137401000"; name := VStr "City of Manila";
                 cityClass := VNull |}) = VStr c
            /\ validCode c = true /\ codeShape c <> District.
Proof.
  apply (cleanData_codes_valid [manilaFirst; manilaSecond]).
  left. vm_compute. reflexivity.
Defined.

Lemma seen_duplicates_step (st : state) (i : nat) (item : obj) :
  match accepted item with
  | Some (c, _) =>
      seen (cleanItem st i item) = {[c]} ∪ seen st
      /\ length (duplicates (cleanItem st i item)) + size (seen (cleanItem st i item))
         = S (length (duplicates st) + size (seen st))
  | None =>
      seen (cleanItem st i item) = seen st
      /\ duplicates (cleanItem st i item) = duplicates st
  end.
Proof.
  assert (Hfresh : forall c, c ∉ seen st ->
            size ({[c]} ∪ seen st) = S (size (seen st))).
  { intros c Hc. rewrite size_union by set_solver. now rewrite size_singleton. }
  destruct (cleanItem_cases st i item)
    as [(-> & e & ->) | [(c & n & -> & Hin & ->) | [(c & n & -> & Hnew & _ & ->)
       | (c & n & e & -> & Hnew & _ & _ & _ & ->)]]]; cbn [seen duplicates
         pushInvalid pushDuplicate pushCleaned addSeen].
  - split; reflexivity.
  - split; [set_solver|]. rewrite length_app. simpl. lia.
  - split; [reflexivity|]. rewrite (Hfresh c Hnew). lia.
  - split; [reflexivity|]. rewrite (Hfresh c Hnew). lia.
Qed.

Lemma seen_duplicates_run (data : list obj) (i : nat) (st : state) :
  seen (cleanFrom i data st) = list_to_set (acceptedCodes data) ∪ seen st
  /\ length (duplicates (cleanFrom i data st)) + size (seen (cleanFrom i data st))
     = length (acceptedCodes data) + (length (duplicates st) + size (seen st)).
Proof.
  revert i st; induction data as [|x data IH]; intros i st.
  - simpl. split; [set_solver | reflexivity].
  - cbn [cleanFrom]. destruct (IH (S i) (cleanItem st i x)) as [IH1 IH2].
    pose proof (seen_duplicates_step st i x) as Hstep.
    unfold acceptedCodes in *. cbn [omap list_omap].
    destruct (accepted x) as [[c n]|].
    + destruct Hstep as [Hs Hd]. split.
      * rewrite IH1, Hs. cbn [fmap list_fmap fst list_to_set]. set_solver.
      * rewrite IH2. cbn [fmap list_fmap length]. lia.
    + destruct Hstep as [Hs Hd]. split.
      * now rewrite IH1, Hs.
      * now rewrite IH2, Hs, Hd.
Qed.

(** X11: the number of duplicates [cleanData] reports is the number of
    records it takes up (code present, name present and text) minus the
    number of distinct codes among them: each code is kept once and every
    further record of that code is counted. *)
Theorem cleanData_duplicates_count (data : list obj) :
  duplicatesRemoved data + size (list_to_set (acceptedCodes data) : gset string)
  = length (acceptedCodes data).
Proof.
  destruct (seen_duplicates_run data 0 init) as [Hs Hd].
  unfold duplicatesRemoved, cleanRun. rewrite Hs in Hd.
  change (seen init) with (∅ : gset string) in Hd.
  change (length (duplicates init)) with 0 in Hd.
  rewrite union_empty_r_L, size_empty in Hd. lia.
Qed.

Lemma length_allData_pushCleaned (t : level) (e : cleanEntity) (st : state) :
  length (allData (pushCleaned t e st))
  = if decide (t = district) then length (allData st) else S (length (allData st)).
Proof. rewrite allData_pushCleaned. now case_decide. Qed.

Lemma accounted_step (st : state) (i : nat) (item : obj) :
  accountedFor (cleanItem st i item) <= S (accountedFor st)
  /\ ((forall c, recordCode item = Some c -> codeShape c <> District) ->
      accountedFor (cleanItem st i item) = S (accountedFor st)).
Proof.
  unfold accountedFor.
  destruct (cleanItem_cases st i item)
    as [(_ & e & ->) | [(c & n & _ & _ & ->) | [(c & n & _ & _ & _ & ->)
       | (c & n & e & Hacc & _ & _ & _ & Hshape & ->)]]].
  - change (allData (pushInvalid e st)) with (allData st).
    change (duplicates (pushInvalid e st)) with (duplicates st).
    change (invalid (pushInvalid e st)) with (invalid st ++ [e]).
    rewrite length_app. simpl. split; [|intros _]; lia.
  - change (allData (pushDuplicate _ st)) with (allData st).
    change (invalid (pushDuplicate _ st)) with (invalid st).
    change (duplicates (pushDuplicate ?d st)) with (duplicates st ++ [d]).
    rewrite (length_app (duplicates st)). simpl. split; [|intros _]; lia.
  - change (allData (pushInvalid _ (addSeen c st))) with (allData st).
    change (duplicates (pushInvalid _ (addSeen c st))) with (duplicates st).
    change (invalid (pushInvalid ?e (addSeen c st))) with (invalid st ++ [e]).
    rewrite length_app. simpl. split; [|intros _]; lia.
  - rewrite length_allData_pushCleaned.
    change (allData (addSeen c st)) with (allData st).
    change (duplicates (pushCleaned (type e) (buildEntity item c e) (addSeen c st)))
      with (duplicates st).
    change (invalid (pushCleaned (type e) (buildEntity item c e) (addSeen c st)))
      with (invalid st).
    case_decide as Hd; (split; [lia|]); intros Hno; [|lia].
    exfalso. apply (Hno c).
    + unfold accepted, recordCode in *.
      destruct (callTrim (ors [get item "name"; _; _])); [|discriminate].
      destruct (callTrim (ors [get item "type"; _; _; _])); [|discriminate].
      destruct (CleanCode.normalizeCode _); [|discriminate].
      destruct (String.eqb _ ""); [discriminate|]. now injection Hacc as -> _.
    + rewrite <- Hshape. now apply level_district.
Qed.

Lemma accounted_run (data : list obj) (i : nat) (st : state) :
  accountedFor (cleanFrom i data st) <= length data + accountedFor st
  /\ (Forall (fun item => forall c, recordCode item = Some c ->
                          codeShape c <> District) data ->
      accountedFor (cleanFrom i data st) = length data + accountedFor st).
Proof.
  revert i st; induction data as [|x data IH]; intros i st; [simpl; auto|].
  cbn [cleanFrom length]. destruct (IH (S i) (cleanItem st i x)) as [IH1 IH2].
  destruct (accounted_step st i x) as [H1 H2]. split; [lia|].
  intros [Hx Hrest]%Forall_cons. rewrite (IH2 Hrest), (H2 Hx). lia.
Qed.

(** X12: [cleanData] accounts for a record at most once: the records of the
    output, the duplicates and the invalid entries are together no more than
    the records of the batch; they are exactly as many when no record has a
    code of the district shape, so that only district-coded records can go
    unreported. *)
Theorem cleanData_accounts (data : list obj) :
  length (cleanData data) + duplicatesRemoved data
  + length (invalid (cleanRun data)) <= length data
  /\ (Forall (fun item => forall c, recordCode item = Some c ->
                          codeShape c <> District) data ->
      length (cleanData data) + duplicatesRemoved data
      + length (invalid (cleanRun data)) = length data).
Proof.
  destruct (accounted_run data 0 init) as [H1 H2].
  unfold accountedFor, cleanData, duplicatesRemoved, cleanRun in *.
  change (length (allData init) + length (duplicates init) + length (invalid init))
    with 0 in *.
  split; [lia|]. intros H. rewrite (H2 H). lia.
Qed.

(** X13: a record that [cleanData] takes up under a district-shaped code not
    seen before is dropped without a trace: appended to any batch it changes
    neither the output nor the duplicates nor the invalid entries; it only
    marks its code as seen. *)
Theorem cleanData_drops_district (data : list obj) (a : obj) (c n : string) :
  accepted a = Some (c, n) ->
  codeShape c = District ->
  c ∉ seen (cleanRun data) ->
  cleanRun (data ++ [a]) = addSeen c (cleanRun data)
  /\ cleanData (data ++ [a]) = cleanData data
  /\ duplicatesRemoved (data ++ [a]) = duplicatesRemoved data
  /\ invalid (cleanRun (data ++ [a])) = invalid (cleanRun data).
Proof.
  intros Hacc Hshape Hnew.
  assert (Hrun : cleanRun (data ++ [a]) = addSeen c (cleanRun data)).
  { unfold cleanRun in *. rewrite cleanFrom_app. cbn [cleanFrom].
    set (st := cleanFrom 0 data init) in *.
    destruct (cleanItem_cases st (0 + length data) a)
      as [(E & _) | [(c' & n' & E & Hin & _) | [(c' & n' & E & _ & Ez & _)
         | (c' & n' & e & E & _ & _ & _ & Hs & ->)]]];
      rewrite Hacc in E; try discriminate; injection E as <- <-.
    - contradiction.
    - subst c. discriminate Hshape.
    - rewrite Hshape in Hs. apply level_district in Hs. rewrite Hs.
      unfold pushCleaned, addSeen. destruct st. reflexivity. }
  unfold cleanData, duplicatesRemoved. rewrite Hrun. repeat split.
Qed.

Lemma cleanData_drops_district_witness :
  cleanData ([manilaFirst] ++ [firstDistrict]) = cleanData [manilaFirst].
Proof.
  apply (cleanData_drops_district [manilaFirst] firstDistrict
           "133910000" "First District"); [reflexivity | reflexivity |].
  refine (bool_decide_unpack _ _). vm_compute. exact I.
Defined.

Lemma cleanData_accounts_witness :
  length (cleanData [manilaFirst; manilaSecond])
  + duplicatesRemoved [manilaFirst; manilaSecond]
  + length (invalid (cleanRun [manilaFirst; manilaSecond])) = 2.
Proof.
  apply (proj2 (cleanData_accounts [manilaFirst; manilaSecond])).
  repeat constructor; intros c [= <-]; discriminate.
Defined.

End CleaningMore.

(** ** Further properties of the merge *)

Section MergeMore.

Import FixMissingRecords MergeSpec.

Lemma codesOf_app (a b : list obj) : codesOf (a ++ b) = codesOf a ∪ codesOf b.
Proof.
  induction a as [|x a IH];
    [change (codesOf b = ∅ ∪ codesOf b); now rewrite union_empty_l_L|].
  change ((x :: a) ++ b) with (x :: (a ++ b)). rewrite !codesOf_cons, IH.
  destruct (codeOf x); set_solver.
Qed.

Lemma codesOf_missingOf (source : list obj) (known : gset string) :
  codesOf (missingOf known source) ∪ known = codesOf source ∪ known.
Proof.
  revert known; induction source as [|x r IH]; intros known; [reflexivity|].
  cbn [missingOf]. rewrite (codesOf_cons x r).
  destruct (codeOf x) as [c|] eqn:E; [|apply IH].
  destruct (decide (c ∈ known)).
  - rewrite IH. set_solver.
  - rewrite codesOf_cons, E. specialize (IH ({[c]} ∪ known)).
    assert (Hl : forall A : gset string, {[c]} ∪ A ∪ known = A ∪ ({[c]} ∪ known))
      by (intros A; set_solver).
    now rewrite !Hl, IH.
Qed.

Lemma missingOf_known (source : list obj) (known : gset string) :
  codesOf source ⊆ known -> missingOf known source = [].
Proof.
  induction source as [|x r IH]; [reflexivity|].
  rewrite codesOf_cons. cbn [missingOf].
  destruct (codeOf x) as [c|]; intros H.
  - rewrite decide_True by set_solver. apply IH. set_solver.
  - now apply IH.
Qed.

Lemma missingOf_sublist (source : list obj) (known : gset string) :
  missingOf known source ⊆ source.
Proof.
  intros x Hx%list_elem_of_In. apply list_elem_of_In.
  now apply missingOf_sound in Hx as [Hx _].
Qed.

Lemma classifiesAll_forall (l : list obj) :
  classifiesAll l = true
  <-> forall x, x ∈ l -> classifyEntity x <> Throw.
Proof.
  unfold classifiesAll. rewrite forallb_forall. split; intros H x Hx.
  - apply list_elem_of_In, H in Hx. now destruct (classifyEntity x).
  - apply list_elem_of_In, H in Hx. now destruct (classifyEntity x).
Qed.

Lemma classifiesAll_merged (complete source : list obj) (known : gset string) :
  classifiesAll complete = true -> classifiesAll source = true ->
  classifiesAll (complete ++ missingOf known source) = true.
Proof.
  rewrite !classifiesAll_forall. intros Hc Hs x [Hx|Hx]%elem_of_app; [auto|].
  apply Hs. now apply (missingOf_sublist source known).
Qed.

Lemma fresh_entitySet (l : list obj) (known : gset string) :
  fresh known l ->
  Forall (fun x => is_Some (codeOf x)) l
  /\ NoDup (omap codeOf l)
  /\ codesOf l ## known.
Proof.
  revert known; induction l as [|x r IH]; intros known.
  - intros _. repeat split; [constructor | constructor | unfold codesOf; set_solver].
  - intros (c & Hc & Hnew & Hr). destruct (IH _ Hr) as (Hall & Hnd & Hdis).
    rewrite codesOf_cons. cbn [omap list_omap]. rewrite Hc. repeat split.
    + constructor; [rewrite Hc; eauto | assumption].
    + apply NoDup_cons. split; [|assumption].
      intros Hin. apply (Hdis c); [|set_solver].
      unfold codesOf. now apply elem_of_list_to_set.
    + set_solver.
Qed.

(** X14: the merge is idempotent: merging the same supplement into the
    result adds nothing. *)
Theorem merge_idempotent (complete source : list obj) :
  classifiesAll complete = true ->
  classifiesAll source = true ->
  exists merged,
    fixMissingRecords complete source = Ok merged
    /\ fixMissingRecords merged source = Ok merged.
Proof.
  intros Hc Hs. exists (complete ++ missingOf (codesOf complete) source).
  split; [now apply fixMissingRecords_spec|].
  rewrite fixMissingRecords_spec
    by (assumption || now apply classifiesAll_merged).
  set (merged := complete ++ missingOf (codesOf complete) source).
  rewrite (missingOf_known source (codesOf merged)); [now rewrite app_nil_r|].
  unfold merged. rewrite codesOf_app.
  pose proof (codesOf_missingOf source (codesOf complete)) as H.
  intros c Hin. apply elem_of_union.
  assert (Hc' : c ∈ codesOf source ∪ codesOf complete)
    by (apply elem_of_union; now left).
  rewrite <- H in Hc'. apply elem_of_union in Hc'. tauto.
Qed.

Lemma merge_idempotent_witness :
  exists merged,
    fixMissingRecords [baselineA] [supplementA; supplementB] = Ok merged
    /\ fixMissingRecords merged [supplementA; supplementB] = Ok merged.
Proof.
  exact (merge_idempotent [baselineA] [supplementA; supplementB] eq_refl eq_refl).
Defined.

(** X15: the merge keeps the key discipline and loses no code: when the
    baseline is an entity set (every record has a code, no code twice), so is
    the result, whatever the supplement holds, and the codes of the result
    are the codes of the baseline and of the supplement together. *)
Theorem merge_preserves_entity_set (complete source : list obj) :
  classifiesAll complete = true ->
  classifiesAll source = true ->
  entitySet complete ->
  exists merged,
    fixMissingRecords complete source = Ok merged
    /\ entitySet merged
    /\ codesOf merged = codesOf complete ∪ codesOf source.
Proof.
  intros Hc Hs [Hall Hnd].
  exists (complete ++ missingOf (codesOf complete) source).
  split; [now apply fixMissingRecords_spec|].
  destruct (fresh_entitySet _ _ (missingOf_fresh source (codesOf complete)))
    as (Hall' & Hnd' & Hdis).
  split; [split|].
  - apply Forall_app. now split.
  - rewrite omap_app. apply NoDup_app. repeat split; try assumption.
    intros c Hin Hin'. apply (Hdis c); unfold codesOf;
      now apply elem_of_list_to_set.
  - rewrite codesOf_app.
    pose proof (codesOf_missingOf source (codesOf complete)). set_solver.
Qed.

Lemma merge_preserves_entity_set_witness :
  exists merged,
    fixMissingRecords [baselineA] [supplementA; supplementB; supplementB] = Ok merged
    /\ entitySet merged
    /\ codesOf merged
       = codesOf [baselineA] ∪ codesOf [supplementA; supplementB; supplementB].
Proof.
  apply (merge_preserves_entity_set [baselineA]
           [supplementA; supplementB; supplementB] eq_refl eq_refl).
  split; [repeat constructor; eexists; reflexivity|].
  refine (bool_decide_unpack _ _). vm_compute. exact I.
Defined.

End MergeMore.

(** ** Further properties of [insertBarangay] *)

Section StoreMore.

Import ImportPSGC ParentSpec.

(** The row [insertBarangay] writes. *)
Lemma insertBarangay_inv (d d' : db) (data : barangayData) :
  insertBarangay d data = Ok d' ->
  exists row,
    d' = {| regions := regions d; provinces := provinces d; cities := cities d;
            municipalities := municipalities d;
            barangays := <[code data := row]> (barangays d) |}
    /\ insertOrReplaceBarangay d (code data) row = Ok d'
    /\ (city_code row, municipality_code row) = resolveParent d data
    /\ name row = name (fields data)
    /\ province_code row = province_code (fields data)
    /\ region_code row = region_code (fields data).
Proof.
  unfold insertBarangay. destruct (resolveParent d data) as [cc mc].
  set (row := {| name := _; city_code := cc |}). intros H. exists row.
  pose proof H as H'. unfold insertOrReplaceBarangay in H'.
  destruct (_ && _); [|discriminate]. injection H' as <-.
  repeat split. exact H.
Qed.

Lemma resolveParent_tables (d d' : db) (data : barangayData) :
  cities d' = cities d -> municipalities d' = municipalities d ->
  resolveParent d' data = resolveParent d data.
Proof. unfold resolveParent. now intros -> ->. Qed.

(** X16: whatever it is given, [insertBarangay] writes one row of
    [barangays] and nothing else: regions, provinces, cities and
    municipalities are unchanged, every other barangay is unchanged, and the
    row stored under the code carries the name, province and region of the
    record. *)
Theorem insertBarangay_frame (d d' : db) (data : barangayData) :
  insertBarangay d data = Ok d' ->
  regions d' = regions d /\ provinces d' = provinces d
  /\ cities d' = cities d /\ municipalities d' = municipalities d
  /\ (forall k, k <> code data -> barangays d' !! k = barangays d !! k)
  /\ exists row,
       barangays d' !! code data = Some row
       /\ name row = name (fields data)
       /\ province_code row = province_code (fields data)
       /\ region_code row = region_code (fields data).
Proof.
  intros (row & -> & _ & _ & Hn & Hp & Hr)%insertBarangay_inv.
  cbn [regions provinces cities municipalities barangays]. repeat split.
  - intros k Hk. now apply lookup_insert_ne.
  - exists row. rewrite lookup_insert_eq. auto.
Qed.

Lemma insertBarangay_frame_witness :
  exists d',
    insertBarangay caviteWithKawit orphanBarangay = Ok d'
    /\ municipalities d' = municipalities caviteWithKawit
    /\ barangays d' !! "042111002" = barangays caviteWithKawit !! "042111002".
Proof.
  eexists. split; [vm_compute; reflexivity|].
  match goal with
  | |- context [municipalities ?d'] =>
      destruct (insertBarangay_frame caviteWithKawit d' orphanBarangay)
        as (_ & _ & _ & Hm & Hk & _); [vm_compute; reflexivity|]
  end.
  split; [exact Hm | apply Hk; discriminate].
Defined.

(** X17: [insertBarangay] is an upsert: inserting the same record again
    succeeds and leaves the store as the first insert left it. *)
Theorem insertBarangay_idempotent (d d' : db) (data : barangayData) :
  insertBarangay d data = Ok d' -> insertBarangay d' data = Ok d'.
Proof.
  intros H. destruct (insertBarangay_inv _ _ _ H) as (row & Hd' & Hins & Hres & _).
  pose proof H as H2. unfold insertBarangay in H2 |- *.
  rewrite (resolveParent_tables d d' data) by (subst d'; reflexivity).
  destruct (resolveParent d data) as [cc mc].
  unfold insertOrReplaceBarangay in H2 |- *.
  replace (cities d') with (cities d) by (subst d'; reflexivity).
  replace (municipalities d') with (municipalities d) by (subst d'; reflexivity).
  replace (provinces d') with (provinces d) by (subst d'; reflexivity).
  replace (regions d') with (regions d) by (subst d'; reflexivity).
  destruct (_ && _); [|discriminate]. injection H2 as H2. f_equal.
  rewrite <- H2 at 2. rewrite <- H2. cbn [barangays].
  now rewrite insert_insert_eq.
Qed.

Lemma insertBarangay_idempotent_witness :
  exists d',
    insertBarangay caviteOnly orphanBarangay = Ok d'
    /\ insertBarangay d' orphanBarangay = Ok d'.
Proof.
  eexists. split; [vm_compute; reflexivity|].
  apply (insertBarangay_idempotent caviteOnly _ orphanBarangay).
  vm_compute. reflexivity.
Defined.

(** X18: a parent link the record names is taken as given: when city_code
    or municipality_code is set nothing is looked up, both links are stored
    as they come (both, when both are set), and the insert is rejected when
    a link that is set names a code missing from its table. *)
Theorem insertBarangay_explicit_parent (d : db) (data : barangayData) :
  orNull (city_code (fields data)) <> None
  \/ orNull (municipality_code (fields data)) <> None ->
  resolveParent d data
  = (orNull (city_code (fields data)), orNull (municipality_code (fields data)))
  /\ (forall d', insertBarangay d data = Ok d' ->
      exists row,
        barangays d' !! code data = Some row
        /\ city_code row = orNull (city_code (fields data))
        /\ municipality_code row = orNull (municipality_code (fields data))
        /\ references (cities d) (city_code row) = true
        /\ references (municipalities d) (municipality_code row) = true)
  /\ (references (cities d) (orNull (city_code (fields data))) = false
      \/ references (municipalities d) (orNull (municipality_code (fields data)))
         = false ->
      insertBarangay d data = Throw).
Proof.
  intros Hset.
  assert (Hres : resolveParent d data
    = (orNull (city_code (fields data)), orNull (municipality_code (fields data)))).
  { unfold resolveParent.
    destruct (orNull (city_code (fields data))) as [cc|]; [reflexivity|].
    destruct (orNull (municipality_code (fields data))) as [mc|]; [reflexivity|].
    destruct Hset; contradiction. }
  split; [exact Hres|]. split.
  - intros d' H. destruct (insertBarangay_inv _ _ _ H)
      as (row & -> & Hins & Hrow & _).
    rewrite Hres in Hrow. injection Hrow as Hc Hm.
    exists row. cbn [barangays]. rewrite lookup_insert_eq.
    unfold insertOrReplaceBarangay in Hins.
    destruct (references (cities d) (city_code row));
      destruct (references (municipalities d) (municipality_code row));
      rewrite ?andb_false_r in Hins; try discriminate Hins.
    repeat split; assumption.
  - intros Hbad. unfold insertBarangay. rewrite Hres.
    unfold insertOrReplaceBarangay.
    cbn [name city_code municipality_code province_code region_code].
    destruct Hbad as [-> | ->]; now rewrite ?andb_false_r.
Qed.

Lemma insertBarangay_explicit_parent_witness :
  insertBarangay caviteWithKawit danglingBarangay = Throw.
Proof.
  apply (insertBarangay_explicit_parent caviteWithKawit danglingBarangay).
  - left. discriminate.
  - left. reflexivity.
Defined.

End StoreMore.

(** ** Further properties of the validator *)

Section ValidatorMore.

Import ValidatePSGC ValidateFile.

Lemma matchAll_allDigits (p : list atom) (s : string) :
  forallb digitAtom p = true -> matchAll p s = true -> allDigits s = true.
Proof.
  revert s; induction p as [|a p IH]; intros [|c s]; simpl; try discriminate; auto.
  intros [Ha Hp]%andb_true_iff [Hm Hs]%andb_true_iff.
  rewrite (IH s Hp Hs), andb_true_r.
  destruct a as [|d]; [exact Hm|]. simpl in Hm, Ha.
  apply Ascii.eqb_eq in Hm. now subst.
Qed.

Lemma matchAll_non_digits (p : list atom) (s : string) :
  forallb digitAtom p = true -> allDigits s = false -> matchAll p s = false.
Proof.
  intros Hp Hs. destruct (matchAll p s) eqn:E; [|reflexivity].
  rewrite (matchAll_allDigits p s Hp E) in Hs. discriminate.
Qed.

Lemma bucketOf_nineDigits (c name : string) (type : jsval) :
  nineDigits c = true ->
  shapeOfBucket (bucketOf c name type) = Some (codeShape c).
Proof.
  intros Hc. destruct (patterns_of_nineDigits c Hc) as (Hr & Hp & Hd & Hm & Hn & Hz).
  unfold bucketOf. rewrite Hr, Hp, Hd, Hm, Hn, Hz. unfold codeShape.
  destruct (String.eqb (substringFrom 2 c) "0000000"); [reflexivity|].
  destruct (String.eqb (substringFrom 4 c) "00000"); [reflexivity|].
  destruct (String.eqb (substringFrom 5 c) "0000"); [reflexivity|].
  destruct (String.eqb (substringFrom 6 c) "000"); simpl; [|reflexivity].
  now match goal with |- context [if ?b then _ else _] => destruct b end.
Qed.

(** X19: the validator files a record under "unknown" exactly when its
    normalised code (the import normaliser strips nothing) is not made of
    digits only. *)
Theorem unknown_iff_not_digits (x : jsval) (c name : string) (type : jsval) :
  ImportCode.normalizeCode x = Some c ->
  bucketOf c name type = unknown <-> allDigits c = false.
Proof.
  intros Hx.
  assert (Hlen : String.length c = 9).
  { unfold ImportCode.normalizeCode in Hx.
    destruct (negb (truthy x)); [discriminate|].
    destruct (_ =? 0)%nat; [discriminate|]. injection Hx as <-.
    apply length_pad_cut. }
  destruct (allDigits c) eqn:Hd.
  - pose proof (bucketOf_nineDigits c name type) as H.
    unfold nineDigits in H. rewrite Hlen, Hd in H. specialize (H eq_refl).
    split; [|discriminate]. intros E. rewrite E in H. discriminate H.
  - split; [reflexivity|]. intros _. unfold bucketOf.
    rewrite !(matchAll_non_digits _ c) by (reflexivity || assumption).
    reflexivity.
Qed.

Lemma unknown_iff_not_digits_witness :
  bucketOf "00000PH-1" "Somewhere" VUndefined = unknown <-> allDigits "00000PH-1" = false.
Proof. apply (unknown_iff_not_digits (VStr "PH-1")). reflexivity. Defined.

Lemma omap_nil_iff {A B : Type} (f : A -> option B) (l : list A) :
  omap f l = [] <-> Forall (fun x => f x = None) l.
Proof.
  induction l as [|x l IH]; cbn [omap list_omap].
  - split; [constructor | reflexivity].
  - rewrite Forall_cons. destruct (f x); [|now rewrite IH].
    split; [discriminate | intros [[=] _]].
Qed.

Lemma validateCount_null (name : string) (actual : Z) (std : standard) :
  snd (validateCount name actual std) = None <-> actual = exact std.
Proof.
  unfold validateCount. destruct (Z.eqb_spec actual (exact std)) as [E|E].
  - split; auto.
  - destruct (_ && _); simpl; split; (discriminate || contradiction).
Qed.

Lemma record_inv (t : tally) (b : bucket) (i : nat) (c n : string) (ty : jsval) :
  tallyInv t ->
  tallyInv (record t b i c n ty)
  /\ totalCount (counts (record t b i c n ty)) = S (totalCount (counts t)).
Proof.
  intros [Hs Hi]. split; [split|].
  - intros b'. cbn [record samples counts]. specialize (Hs b').
    case_decide as E; [subst b'|assumption].
    destruct (Nat.ltb_spec (length (samples t b)) (cap b));
      rewrite ?length_app; simpl; lia.
  - cbn [record issues counts].
    destruct (decide (b = unknown)) as [->|E]; case_decide; try congruence.
    rewrite length_app. simpl. lia.
  - unfold totalCount. cbn [record counts].
    destruct b; repeat case_decide; try congruence; lia.
Qed.

Lemma step_inv (t t' : tally) (i : nat) (item : obj) :
  step t i item = Ok t' -> tallyInv t ->
  tallyInv t' /\ totalCount (counts t') <= S (totalCount (counts t)).
Proof.
  unfold step. destruct (callTrim _) as [n|]; [|discriminate].
  destruct (ImportCode.normalizeCode _) as [c|]; [|intros [= <-]; auto].
  destruct (String.eqb c "000000000"); [intros [= <-]; auto|].
  intros [= <-] H.
  match goal with
  | |- tallyInv (record ?t ?b ?i ?c ?n ?ty) /\ _ =>
      destruct (record_inv t b i c n ty H) as [H1 H2]
  end.
  split; [exact H1 | rewrite H2; lia].
Qed.

Lemma loop_inv (data : list obj) (i : nat) (t t' : tally) :
  loop i data t = Ok t' -> tallyInv t ->
  tallyInv t' /\ totalCount (counts t') <= length data + totalCount (counts t).
Proof.
  revert i t; induction data as [|x data IH]; intros i t; cbn [loop].
  - intros [= <-] H. split; [assumption | simpl; lia].
  - destruct (step t i x) as [t1|] eqn:E; [|discriminate].
    intros Hl Ht. destruct (step_inv _ _ _ _ E Ht) as [H1 H2].
    destruct (IH _ _ Hl H1) as [H3 H4]. split; [assumption | simpl; lia].
Qed.

Lemma record_tallies (es : list entry) (t : tally) (e : entry) :
  tallies es t ->
  tallies (es ++ [e])
          (record t (e_bucket e) (e_index e) (e_code e) (e_name e) (e_type e)).
Proof.
  intros [Hb Hi]. split.
  - intros b. destruct (Hb b) as [Hc Hs]. unfold ofBucket in *.
    rewrite filter_app, filter_cons, filter_nil. cbn [record counts samples].
    destruct (decide (b = e_bucket e)) as [->|Hne].
    + rewrite decide_True by reflexivity.
      rewrite length_app. cbn [length]. split; [lia|].
      set (L := filter (fun e0 => e_bucket e0 = e_bucket e) es) in *.
      rewrite Hs, length_fmap, length_take.
      destruct (Nat.ltb_spec (Nat.min (cap (e_bucket e)) (length L))
                             (cap (e_bucket e))) as [Hlt|Hge].
      * rewrite !take_ge by (rewrite ?length_app; simpl; lia).
        rewrite fmap_app. reflexivity.
      * rewrite take_app_le by lia. reflexivity.
    + rewrite decide_False by congruence. rewrite app_nil_r. split; assumption.
  - unfold ofBucket in *.
    rewrite filter_app, filter_cons, filter_nil. cbn [record issues].
    destruct (decide (e_bucket e = unknown)) as [E|E].
    + rewrite fmap_app, Hi. reflexivity.
    + rewrite app_nil_r. exact Hi.
Qed.

Lemma step_tallies (es : list entry) (t t' : tally) (i : nat) (item : obj) :
  step t i item = Ok t' -> tallies es t ->
  tallies (es ++ omap id [counted i item]) t'.
Proof.
  unfold step, counted. destruct (callTrim _) as [n|]; [|discriminate].
  destruct (ImportCode.normalizeCode _) as [c|];
    [|intros [= <-] H; simpl; now rewrite app_nil_r].
  destruct (String.eqb c "000000000");
    [intros [= <-] H; simpl; now rewrite app_nil_r|].
  intros [= <-] H. simpl omap.
  match goal with
  | |- tallies (es ++ [?e]) _ => exact (record_tallies es t e H)
  end.
Qed.

Lemma loop_tallies (data : list obj) (i : nat) (es : list entry) (t t' : tally) :
  loop i data t = Ok t' -> tallies es t ->
  tallies (es ++ omap id (imap (fun j => counted (i + j)) data)) t'.
Proof.
  revert i es t; induction data as [|x data IH]; intros i es t; cbn [loop].
  - intros [= <-] H. simpl. now rewrite app_nil_r.
  - destruct (step t i x) as [t1|] eqn:E; [|discriminate].
    intros Hl Ht. pose proof (step_tallies es t t1 i x E Ht) as H1.
    pose proof (IH _ _ _ Hl H1) as H2.
    rewrite imap_cons, Nat.add_0_r.
    replace (omap id (counted i x :: imap ((fun j => counted (i + j)) ∘ S) data))
      with (omap id [counted i x]
            ++ omap id (imap (fun j => counted (S i + j)) data)).
    + rewrite app_assoc. exact H2.
    + rewrite (imap_ext (fun j => counted (S i + j))
                        ((fun j => counted (i + j)) ∘ S) data)
        by (intros j y _; simpl; f_equal; lia).
      simpl. destruct (counted i x); reflexivity.
Qed.

(** X20: what the counting loop of [validateDataFile] keeps.  Each counter
    is the number of counted records of its bucket; the samples of a bucket
    are the first records of that bucket in the order of the file, up to
    the cap (three, five for unknown patterns) and no more, each with the
    code, name and type read, and its index for an unknown pattern; the
    issues are those of the unknown patterns, one each, in order; and the
    seven counters never add up to more than the records of the file. *)
Theorem validate_tally_invariants (data : list obj) (t : tally) (vi : list string) :
  validateDataFile data = Ok (t, vi) ->
  (forall b,
      counts t b = length (ofBucket b (entries data))
      /\ samples t b = sampleOf <$> take (cap b) (ofBucket b (entries data))
      /\ length (samples t b) = Nat.min (cap b) (counts t b))
  /\ issues t = issueOf <$> ofBucket unknown (entries data)
  /\ length (issues t) = counts t unknown
  /\ totalCount (counts t) <= length data.
Proof.
  unfold validateDataFile. destruct (loop 0 data start) as [t0|] eqn:E;
    [|discriminate].
  intros [= <- _].
  destruct (loop_inv data 0 start t0 E) as [[H1 H2] H3].
  { split; [intros b; now destruct b | reflexivity]. }
  destruct (loop_tallies data 0 [] start t0 E) as [H4 H5].
  { split; [intros b; split; now destruct b | reflexivity]. }
  split; [intros b; destruct (H4 b); auto|].
  split; [exact H5|]. split; [exact H2|].
  unfold totalCount in *. simpl in H3. lia.
Qed.

Lemma validate_tally_invariants_witness :
  exists t vi,
    validateDataFile sixRecords = Ok (t, vi)
    /\ (s_name <$> samples t regions) = ["Region I"; "Region II"; "Region III"]
    /\ counts t regions = 4
    /\ length (issues t) = 1
    /\ totalCount (counts t) <= 6.
Proof.
  eexists _, _. split; [vm_compute; reflexivity|].
  match goal with
  | |- context [samples ?t regions] =>
      destruct (validate_tally_invariants sixRecords t _ eq_refl)
        as (Hb & Hi & _ & Ht)
  end.
  destruct (Hb regions) as (Hc & Hs & _).
  rewrite Hs, Hc, Hi. split; [reflexivity|]. split; [reflexivity|].
  split; [reflexivity | exact Ht].
Defined.

Lemma step_throws (t : tally) (i : nat) (item : obj) :
  step t i item = Throw
  <-> callTrim (ors [get item "name"; get item "Name"; get item "NAME"; VStr ""])
      = None.
Proof.
  unfold step. destruct (callTrim _) as [n|]; [|split; reflexivity].
  destruct (ImportCode.normalizeCode _) as [c|]; [|split; discriminate].
  destruct (String.eqb c "000000000"); split; discriminate.
Qed.

Lemma loop_throws (data : list obj) (i : nat) (t : tally) :
  loop i data t = Throw
  <-> Exists (fun item =>
        callTrim (ors [get item "name"; get item "Name"; get item "NAME"; VStr ""])
        = None) data.
Proof.
  revert i t; induction data as [|x data IH]; intros i t; cbn [loop].
  - split; [discriminate | intros H; inversion H].
  - rewrite Exists_cons. destruct (step t i x) as [t1|] eqn:E.
    + rewrite IH. split; [auto|]. intros [H|H]; [|exact H].
      apply (step_throws t i x) in H. congruence.
    + split; [|reflexivity]. intros _. left. now apply (step_throws t i x).
Qed.

(** X21: [validateDataFile] fails on a parsed file exactly when some record
    has a name that is not text (the name is trimmed before the code is
    looked at, and nothing catches the error); a record without a code, with
    the all-zero code or with an unknown pattern never makes it fail. *)
Theorem validateDataFile_throws_iff (data : list obj) :
  validateDataFile data = Throw
  <-> Exists (fun item =>
        callTrim (ors [get item "name"; get item "Name"; get item "NAME"; VStr ""])
        = None) data.
Proof.
  unfold validateDataFile. rewrite <- (loop_throws data 0 start).
  destruct (loop 0 data start); split; (discriminate || reflexivity).
Qed.

(** X22: the data file raises no validation issue exactly when the five
    counted levels match the PSA figures (18 regions, 82 provinces, 149
    cities, 1493 municipalities, 42011 barangays); the district and unknown
    counters are not checked. *)
Theorem validationIssues_empty_iff (t : tally) :
  validationIssues t = []
  <-> Z.of_nat (counts t regions) = 18%Z
      /\ Z.of_nat (counts t provinces) = 82%Z
      /\ Z.of_nat (counts t cities) = 149%Z
      /\ Z.of_nat (counts t municipalities) = 1493%Z
      /\ Z.of_nat (counts t barangays) = 42011%Z.
Proof.
  unfold validationIssues. rewrite omap_nil_iff.
  rewrite !Forall_cons, Forall_nil.
  rewrite !validateCount_null.
  cbn [exact PSA_regions PSA_provinces PSA_cities PSA_municipalities PSA_barangays
       exactly].
  tauto.
Qed.

End ValidatorMore.

(** ** The conversion of fetched records *)

Section ConvertMore.

Import CloudConvert.

Lemma cloud_code_truthy (x : jsval) : truthy (VStr (CloudCode.normalizeCode x)) = true.
Proof.
  cbn [truthy]. rewrite eqb_empty_length.
  assert (H : String.length (CloudCode.normalizeCode x) = 9).
  { unfold CloudCode.normalizeCode.
    destruct (Nat.eqb_spec (String.length (toStr x)) 10) as [E|E]; cbn [andb].
    - destruct (startsWith "0" (toStr x)); [|apply length_pad_cut].
      rewrite length_substringFrom, E. reflexivity.
    - apply length_pad_cut. }
  now rewrite H.
Qed.

Lemma convertItem_some (type : string) (item : obj) (e : list (string * jsval)) :
  convertItem type item = Some e ->
  truthy (fetchedName item) = true
  /\ exists rest,
       e = ("code", VStr (CloudCode.normalizeCode (ors [get item "code"; get item "Code"])))
           :: ("name", fetchedName item) :: rest.
Proof.
  unfold convertItem. fold (fetchedName item). rewrite cloud_code_truthy.
  cbn [negb orb]. destruct (truthy (fetchedName item)); [|discriminate].
  cbn [negb]. intros H. split; [reflexivity|].
  repeat (match type of H with
          | (if ?b then _ else _) = _ => destruct b
          end);
    injection H as <-; eexists; reflexivity.
Qed.

Lemma convertItem_none (type : string) (item : obj) :
  convertItem type item = None <-> truthy (fetchedName item) = false.
Proof.
  unfold convertItem. fold (fetchedName item). rewrite cloud_code_truthy.
  cbn [negb orb]. destruct (truthy (fetchedName item)); cbn [negb].
  - split; [|discriminate].
    repeat (match goal with
            | |- (if ?b then _ else _) = _ -> _ => destruct b
            end); discriminate.
  - split; reflexivity.
Qed.

(** X23: [convertToOurFormat] of the PSGC Cloud script drops a record
    exactly when it has no name: the test on the code never rejects, because
    the normaliser of that script always returns nine characters.  Every
    converted record starts with a nine-character "code" and its truthy
    "name", and there are as many converted records as named ones. *)
Theorem convert_keeps_named (items : list obj) (type : string) :
  (forall item, convertItem type item = None <-> truthy (fetchedName item) = false)
  /\ (forall e, In e (convertToOurFormat items type) ->
        exists c n rest,
          e = ("code", VStr c) :: ("name", n) :: rest
          /\ String.length c = 9 /\ truthy n = true)
  /\ length (convertToOurFormat items type)
     = length (filter (fun item => truthy (fetchedName item) = true) items).
Proof.
  split; [intros item; apply convertItem_none|]. split.
  - intros e Hin. apply list_elem_of_In in Hin. unfold convertToOurFormat in Hin.
    apply list_elem_of_omap in Hin as (item & _ & Hsome).
    destruct (convertItem_some _ _ _ Hsome) as (Hn & rest & ->).
    eexists _, _, rest. split; [reflexivity|]. split; [|exact Hn].
    pose proof (cloud_code_truthy (ors [get item "code"; get item "Code"])) as H.
    clear -H. cbn [truthy] in H. rewrite eqb_empty_length in H.
    unfold CloudCode.normalizeCode in *.
    destruct (Nat.eqb_spec (String.length (toStr (ors [get item "code"; get item "Code"]))) 10)
      as [E|E]; cbn [andb] in *.
    + destruct (startsWith "0" _); [|apply length_pad_cut].
      rewrite length_substringFrom, E. reflexivity.
    + apply length_pad_cut.
  - unfold convertToOurFormat. induction items as [|x items IH]; [reflexivity|].
    cbn [omap list_omap]. rewrite filter_cons.
    destruct (convertItem type x) as [e|] eqn:E.
    + apply convertItem_some in E as [Hn _].
      rewrite decide_True by assumption. simpl. now rewrite IH.
    + apply convertItem_none in E. rewrite decide_False by congruence. exact IH.
Qed.

(** X24: a fetched record that has a name but neither a [code] nor a [Code]
    property is not rejected: it is converted under the code "undefined",
    the nine characters [String(undefined)] pads and cuts to. *)
Theorem convert_missing_code (type : string) (item : obj) :
  get item "code" = VUndefined -> get item "Code" = VUndefined ->
  truthy (fetchedName item) = true ->
  exists rest,
    convertItem type item
    = Some (("code", VStr "undefined") :: ("name", fetchedName item) :: rest).
Proof.
  intros Hc1 Hc2 Hn.
  destruct (convertItem type item) as [e|] eqn:E.
  - destruct (convertItem_some _ _ _ E) as (_ & rest & ->).
    exists rest. now rewrite Hc1, Hc2.
  - apply convertItem_none in E. congruence.
Qed.

Lemma convert_missing_code_witness :
  exists rest,
    convertItem "barangay" {[ "name" := VStr "Poblacion" ]}
    = Some (("code", VStr "undefined") :: ("name", VStr "Poblacion") :: rest).
Proof.
  exact (convert_missing_code "barangay" {[ "name" := VStr "Poblacion" ]}
           eq_refl eq_refl eq_refl).
Defined.

End ConvertMore.
